(** * Default speed assignment of directed edges (mjolnir/speed_assigner.h)

    A shallow embedding of [SpeedAssigner]: the speed tables read from the
    json configuration, the override path [FromConfig] and the heuristic
    waterfall of [UpdateSpeed], followed by the properties the design
    document states about them. *)

From Stdlib Require Import ZArith Floats.SpecFloat.
From stdpp Require Import base decidable option list vector strings pretty gmap.

Local Open Scope Z_scope.

(** ** Results with failure

    Two kinds of failure occur in the source: C++ exceptions while the
    configuration is loaded, and undefined behaviour (an unchecked array read,
    a float to integer conversion out of range) on the assignment path. Both
    are values of [result], with the failure kept as data. *)

Inductive result (E A : Type) : Type :=
  | Ok (a : A)
  | Err (e : E).
Arguments Ok {E A} a.
Arguments Err {E A} e.

Definition bind {E A B} (m : result E A) (k : A -> result E B) : result E B :=
  match m with
  | Ok a => k a
  | Err e => Err e
  end.

Notation "'let*' x ':=' m 'in' k" := (bind m (fun x => k))
  (at level 10, x name, m at level 100, k at level 200, only parsing).

(** Undefined behaviour on the assignment path. *)
Inductive fault : Type :=
  | OutOfBounds     (* an array read past the end of the array *)
  | CastOutOfRange. (* a float converted to uint32_t that does not fit *)

(** ** Single precision arithmetic

    The factors are [float] constants and the products are taken in single
    precision: IEEE 754 binary32, round to nearest even, as specified by
    [SpecFloat] at precision 24 and maximal exponent 128. *)
Module Float32.

Definition prec : Z := 24.
Definition emax : Z := 128.

(** Conversion of an unsigned integer to [float]. *)
Definition of_uint32 (n : Z) : spec_float := binary_normalize prec emax n 0 false.

Definition mul (x y : spec_float) : spec_float := SFmul prec emax x y.
Definition add (x y : spec_float) : spec_float := SFadd prec emax x y.

(** The integer part of a finite float, rounding toward zero. *)
Definition trunc (f : spec_float) : option Z :=
  match f with
  | S754_zero _ => Some 0
  | S754_finite s m e =>
      let v := match e with
               | Zneg p => Z.pos m / 2 ^ Z.pos p
               | _ => Z.pos m * 2 ^ e
               end in
      Some (if s then - v else v)
  | _ => None
  end.

(** [static_cast<uint32_t>(f)]: the fractional part is discarded, and the
    conversion is undefined when the integer part is not a [uint32_t]. *)
Definition to_uint32 (f : spec_float) : result fault Z :=
  match trunc f with
  | Some v => if (0 <=? v) && (v <? 2 ^ 32) then Ok v else Err CastOutOfRange
  | None => Err CastOutOfRange
  end.

(** 0.5f = 2^-1 *)
Definition half : spec_float := S754_finite false 8388608 (-24).

End Float32.

(** Factors used to adjust speed assignments. The literals 0.8f and 0.85f are
    the floats nearest to the decimals: 0x3F4CCCCD and 0x3F59999A. *)
Definition kTurnChannelFactor : spec_float := S754_finite false 10485760 (-23).
Definition kRampDensityFactor : spec_float := S754_finite false 13421773 (-24).
Definition kRampFactor : spec_float := S754_finite false 14260634 (-24).
Definition kRoundaboutFactor : spec_float := S754_finite false 8388608 (-24).

(** [static_cast<uint32_t>((speed * factor) + 0.5f)] *)
Definition scaled (factor : spec_float) (speed : Z) : result fault Z :=
  Float32.to_uint32
    (Float32.add (Float32.mul (Float32.of_uint32 speed) factor) Float32.half).

(** ** Edge attributes *)

(** The uses the assigner distinguishes; every other use is [kOtherUse]. *)
Inductive Use : Type :=
  | kRamp
  | kTurnChannel
  | kDriveway
  | kAlley
  | kParkingAisle
  | kDriveThru
  | kFerry
  | kRailFerry
  | kOtherUse (code : nat).

Global Instance Use_eq_dec : EqDecision Use.
Proof. solve_decision. Defined.

(** Where the speed of an edge comes from: a tag of the source data, or the
    default of its classification. *)
Inductive SpeedType : Type :=
  | kTagged
  | kClassified.

Global Instance SpeedType_eq_dec : EqDecision SpeedType.
Proof. solve_decision. Defined.

(** The constants of baldr/graphconstants.h the assigner refers to. The
    header is not part of the sources at hand, so the development is
    parameterised by their values. Road classes and surfaces are compared and
    used as indices through their ranks. *)
Record GraphConstants : Type := {
  kVehicularAccess : Z;
  kPavedRough : nat;
  kParkingAisleSpeed : Z;
  kDrivewaySpeed : Z;
  kDriveThruSpeed : Z;
  kMotorway : nat;
  kTrunk : nat;
  kPrimary : nat
}.

(** Modelled from the spec: the class [DirectedEdge] of baldr is not part of
    the sources at hand. It is the record of the attributes the assigner
    reads, and [set_speed] writes the speed and nothing else ("speed is
    mutated in place"). *)
Module DirectedEdge.

Record t : Type := mk {
  classification : nat;
  use : Use;
  forwardaccess : Z;
  reverseaccess : Z;
  link : bool;
  roundabout : bool;
  sign : bool;
  surface : nat;
  speed : Z;
  speed_type : SpeedType;
  length : Z;
  leaves_tile : bool
}.

(** Modelled from the spec: [DirectedEdge::set_speed] assigns the speed. *)
Definition set_speed (e : t) (v : Z) : t :=
  {| classification := classification e;
     use := use e;
     forwardaccess := forwardaccess e;
     reverseaccess := reverseaccess e;
     link := link e;
     roundabout := roundabout e;
     sign := sign e;
     surface := surface e;
     speed := v;
     speed_type := speed_type e;
     length := length e;
     leaves_tile := leaves_tile e |}.

End DirectedEdge.

(** ** Speed tables *)

(** [arr[i]] on a [std::array] of [n] entries: undefined past the end. *)
Definition at_index {n : nat} (arr : vec Z n) (i : nat) : result fault Z :=
  match vec_to_list arr !! i with
  | Some v => Ok v
  | None => Err OutOfBounds
  end.

(** [p[i]] on the array a raw pointer points to, here with its extent. *)
Definition at_pointer (arr : list Z) (i : nat) : result fault Z :=
  match arr !! i with
  | Some v => Ok v
  | None => Err OutOfBounds
  end.

Module SpeedTable.

Record t : Type := mk {
  way : vec Z 8;            (* no special uses *)
  link_exiting : vec Z 5;   (* ramps *)
  link_turning : vec Z 5;   (* turn channel *)
  roundabout : vec Z 8;     (* roundabout *)
  service : vec Z 4         (* driveway, alley, parking_aisle, drive-through *)
}.

Global Instance eq_dec : EqDecision t.
Proof. solve_decision. Defined.

End SpeedTable.

(** [std::array<SpeedTable, 2>]: the urban table at index 0, the rural one at
    index 1. *)
Definition table_pair : Type := (SpeedTable.t * SpeedTable.t)%type.

Definition urban (p : table_pair) : SpeedTable.t := fst p.
Definition rural (p : table_pair) : SpeedTable.t := snd p.

(** [p[b]] with the boolean [b] converted to an index. *)
Definition pair_at (p : table_pair) (b : bool) : SpeedTable.t :=
  if b then rural p else urban p.

(** ** The assigner *)

(** 2 letter country and 2 letter state as key with urban and rural speed
    tables as value. *)
Abbreviation registry := (gmap string table_pair).

Section Assign.

Variable K : GraphConstants.

Import DirectedEdge.

(** The edges [FromConfig] leaves to the heuristic: ferry stuff or anything
    not motor vehicle. *)
Definition not_from_config (e : DirectedEdge.t) : bool :=
  bool_decide (use e = kFerry) || bool_decide (use e = kRailFerry)
  || (Z.land (Z.lor (forwardaccess e) (reverseaccess e)) (kVehicularAccess K) =? 0).

(** The three lookups of [FromConfig]: the country state combo, then the
    country only, then neither. *)
Definition find_tables (tables : registry) (country state : string) : option table_pair :=
  let found := tables !! ((country +:+ ".") +:+ state) in
  let found := match found with
               | None => tables !! (country +:+ ".")
               | Some _ => found
               end in
  let found := match found with
               | None => tables !! ""
               | Some _ => found
               end in
  found.

(** The assignment of [FromConfig] once the table is selected: the flag
    returned and the edge after the call. *)
Definition from_table (speed_table : SpeedTable.t) (e : DirectedEdge.t)
    : result fault (bool * DirectedEdge.t) :=
  let rc := classification e in
  (* some kind of special use *)
  match use e with
  | kDriveway => Ok (true, set_speed e (SpeedTable.service speed_table !!! 0%fin))
  | kAlley => Ok (true, set_speed e (SpeedTable.service speed_table !!! 1%fin))
  | kParkingAisle => Ok (true, set_speed e (SpeedTable.service speed_table !!! 2%fin))
  | kDriveThru => Ok (true, set_speed e (SpeedTable.service speed_table !!! 3%fin))
  | _ =>
      (* exit ramp *)
      if link e then
        (* these classes dont have links *)
        if (5 <=? rc)%nat then Ok (false, e)
        (* we use signage to tell if its an exit *)
        else if sign e then
          let* v := at_index (SpeedTable.link_exiting speed_table) rc in
          Ok (true, set_speed e v)
        else
          let* v := at_index (SpeedTable.link_turning speed_table) rc in
          Ok (true, set_speed e v)
      (* roundabout *)
      else if roundabout e then
        let* v := at_index (SpeedTable.roundabout speed_table) rc in
        Ok (true, set_speed e v)
      else
        (* non-special use, just use the road class *)
        let* v := at_index (SpeedTable.way speed_table) rc in
        Ok (true, set_speed e v)
  end.

(** [FromConfig]: the flag returned and the edge after the call. *)
Definition FromConfig (tables : registry) (e : DirectedEdge.t) (density : Z)
    (country state : string) : result fault (bool * DirectedEdge.t) :=
  if not_from_config e then Ok (false, e)
  else
    match find_tables tables country state with
    | None => Ok (false, e)
    | Some found =>
        (* urban or rural *)
        from_table (pair_at found (density <=? 8)) e
    end.

(** Speed of a link: ramps (if not a tagged speed) and turn channels. *)
Definition link_speed (e : DirectedEdge.t) (density : Z) (infer_turn_channels : bool)
    : result fault Z :=
  let speed := speed e in
  if bool_decide (use e = kTurnChannel) && infer_turn_channels then
    scaled kTurnChannelFactor speed
  else if bool_decide (use e = kRamp) && negb (bool_decide (speed_type e = kTagged)) then
    let rc := classification e in
    if bool_decide (rc = kMotorway K) || bool_decide (rc = kTrunk K)
       || bool_decide (rc = kPrimary K) then
      if density >? 8 then scaled kRampDensityFactor speed
      else scaled kRampFactor speed
    else scaled kRampFactor speed
  else Ok speed.

(** The body of [UpdateSpeed] below the configuration test. *)
Definition heuristic (e : DirectedEdge.t) (density : Z) (urban_rc_speed : list Z)
    (infer_turn_channels : bool) : result fault DirectedEdge.t :=
  if link e then
    let* speed := link_speed e density infer_turn_channels in
    (* Done processing links so return... *)
    Ok (set_speed e speed)
  else if bool_decide (speed_type e = kTagged) then
    (* Reduce speed on rough pavements. *)
    if (kPavedRough K <=? surface e)%nat then
      let speed := speed e in
      if 50 <=? speed then Ok (set_speed e (speed - 10))
      else if 15 <? speed then Ok (set_speed e (speed - 5))
      else Ok e
    else Ok e
  else if bool_decide (use e = kRailFerry) then
    Ok (set_speed e 65)
  else if bool_decide (use e = kFerry) then
    if leaves_tile e then Ok e
    else if length e <? 2000 then Ok (set_speed e 10)
    else if length e <? 8000 then Ok (set_speed e 20)
    else Ok (set_speed e 30)
  else
    (* Modify speed for roads in urban regions *)
    let* e :=
      if density >? 8 then
        let rc := classification e in
        let* v := at_pointer urban_rc_speed rc in
        Ok (set_speed e v)
      else Ok e in
    let* e :=
      if roundabout e then
        let speed := speed e in (* could be default or urban speed *)
        let* v := scaled kRoundaboutFactor speed in
        Ok (set_speed e v)
      else Ok e in
    (* Reduce speeds on parking aisles, driveways, and drive-thrus. *)
    let e :=
      match use e with
      | kParkingAisle => set_speed e (kParkingAisleSpeed K)
      | kDriveway => set_speed e (kDrivewaySpeed K)
      | kDriveThru => set_speed e (kDriveThruSpeed K)
      | _ => e
      end in
    (* Modify speed based on surface. *)
    if (kPavedRough K <=? surface e)%nat then
      let speed := speed e in
      Ok (set_speed e (speed / 2))
    else Ok e.

(** [UpdateSpeed]: the edge after the call. *)
Definition UpdateSpeed (tables : registry) (e : DirectedEdge.t) (density : Z)
    (urban_rc_speed : list Z) (infer_turn_channels : bool)
    (country_code state_code : string) : result fault DirectedEdge.t :=
  (* If we have config loaded we'll use that *)
  let* configured :=
    if bool_decide (tables = ∅) then Ok (false, e)
    else FromConfig tables e density country_code state_code in
  if configured.1 then Ok configured.2
  else heuristic configured.2 density urban_rc_speed infer_turn_channels.

End Assign.

Local Set Warnings "-register-all".

(** ** The configuration document *)

(** What the loading code can throw: something derived from
    [std::exception], with its message, or anything else. *)
Inductive exn : Type :=
  | StdException (what : string)
  | UnknownException.

(** Modelled from the spec: baldr/rapidjson_utils.h and rapidjson are not part
    of the sources at hand. A json value is read through accessors that fail
    when the value has not the shape asked for ("absence of any named field is
    a fatal parse error"); an object keeps its members in document order and
    [obj[name]] is the first member of that name. The messages of these
    failures stand for those of the library. *)
Inductive json : Type :=
  | JNull
  | JBool (b : bool)
  | JInt (z : Z)
  | JReal (literal : string)
  | JString (s : string)
  | JArray (items : list json)
  | JObject (members : list (string * json)).

Module rapidjson.

Fixpoint FindMember (members : list (string * json)) (name : string) : option json :=
  match members with
  | [] => None
  | (k, v) :: rest => if bool_decide (k = name) then Some v else FindMember rest name
  end.

(** Modelled from the spec: [obj[name]] of rapidjson, which throws when [obj]
    is no object or has no member of that name. *)
Definition member (obj : json) (name : string) : result exn json :=
  match obj with
  | JObject members =>
      match FindMember members name with
      | Some v => Ok v
      | None => Err (StdException ("no member " +:+ name))
      end
  | _ => Err (StdException "IsObject()")
  end.

(** Modelled from the spec: the typed getters of rapidjson, which throw on a
    value of another type. *)
Definition GetString (v : json) : result exn string :=
  match v with
  | JString s => Ok s
  | _ => Err (StdException "IsString()")
  end.

Definition GetArray (v : json) : result exn (list json) :=
  match v with
  | JArray items => Ok items
  | _ => Err (StdException "IsArray()")
  end.

Definition IsArray (v : json) : bool :=
  match v with
  | JArray _ => true
  | _ => false
  end.

(** Modelled from the spec: a value is a [Uint] when it is an integer that
    fits an unsigned number of 32 bits. *)
Definition IsUint (z : Z) : bool := (0 <=? z) && (z <? 2 ^ 32).

Definition GetUint (v : json) : result exn Z :=
  match v with
  | JInt z => if IsUint z then Ok z else Err (StdException "IsUint()")
  | _ => Err (StdException "IsUint()")
  end.

(** The document [read_json] returns: the root value and the parse flag. *)
Record Document : Type := {
  HasParseError : bool;
  root : json
}.

End rapidjson.

(** The loop [for (const auto& speed : arr) entries[i++] = speed.GetUint()]
    as far as it reads: the speeds in order, or the first failure. *)
Fixpoint GetUints (arr : list json) : result exn (list Z) :=
  match arr with
  | [] => Ok []
  | speed :: rest =>
      let* v := rapidjson.GetUint speed in
      let* vs := GetUints rest in
      Ok (v :: vs)
  end.

(** and as far as it writes: [entries] overwritten from its first slot on. *)
Fixpoint fill {n : nat} (entries : vec Z n) (speeds : list Z) : vec Z n :=
  match entries in Vector.t _ n return vec Z n with
  | vnil => vnil
  | vcons x rest =>
      match speeds with
      | [] => vcons x rest
      | s :: speeds => vcons s (fill rest speeds)
      end
  end.

(** [SpeedTable::parse]. The entries of the table under construction hold no
    meaningful value before the call; they start as zeros here. *)
Definition parse (obj : json) (name : string) (n : nat) : result exn (vec Z n) :=
  let* field := rapidjson.member obj name in
  let* arr := rapidjson.GetArray field in
  if bool_decide (length arr ≠ n) then
    Err (StdException (name +:+ " must have " +:+ pretty n +:+ " speeds"))
  else
    let* speeds := GetUints arr in
    Ok (fill (vreplicate n 0) speeds).

Definition GetUintMember (obj : json) (name : string) : result exn Z :=
  let* field := rapidjson.member obj name in
  rapidjson.GetUint field.

(** [SpeedTable::SpeedTable] *)
Definition SpeedTable_ctor (obj : json) : result exn SpeedTable.t :=
  let* way := parse obj "way" 8 in
  let* link_exiting := parse obj "link_exiting" 5 in
  let* link_turning := parse obj "link_turning" 5 in
  let* roundabout := parse obj "roundabout" 8 in
  let* driveway := GetUintMember obj "driveway" in
  let* alley := GetUintMember obj "alley" in
  let* parking_aisle := GetUintMember obj "parking_aisle" in
  let* drive_through := GetUintMember obj "drive-through" in
  Ok (SpeedTable.mk way link_exiting link_turning roundabout
        [# driveway; alley; parking_aisle; drive_through]).

(** ** Construction of the assigner

    The constructor runs in a state, the table under construction and the
    log, and may throw. *)
Inductive log_level : Type := INFO | WARN.

Record ctor_state : Type := {
  tables : registry;
  log : list (log_level * string)
}.

Definition ctor (A : Type) : Type := ctor_state -> ctor_state * result exn A.

Definition ctor_ret {A} (a : A) : ctor A := fun st => (st, Ok a).

Definition ctor_bind {A B} (m : ctor A) (k : A -> ctor B) : ctor B :=
  fun st =>
    match m st with
    | (st', Ok a) => k a st'
    | (st', Err e) => (st', Err e)
    end.

Notation "'let!' x ':=' m 'in' k" := (ctor_bind m (fun x => k))
  (at level 10, x name, m at level 100, k at level 200, only parsing).

Notation "m '>>' k" := (ctor_bind m (fun _ => k))
  (at level 100, k at level 200, right associativity, only parsing).

Definition throw {A} (e : exn) : ctor A := fun st => (st, Err e).

Definition lift {A} (m : result exn A) : ctor A := fun st => (st, m).

(** [try { body } catch (...) { handler }] *)
Definition try_catch {A} (body : ctor A) (handler : exn -> ctor A) : ctor A :=
  fun st =>
    match body st with
    | (st', Ok a) => (st', Ok a)
    | (st', Err e) => handler e st'
    end.

Definition LOG (level : log_level) (message : string) : ctor unit :=
  fun st => ({| tables := tables st; log := log st ++ [(level, message)] |}, Ok tt).

(** [tables.emplace(code, value)]: no effect when the key is present. *)
Definition emplace (code : string) (value : table_pair) : ctor unit :=
  fun st =>
    match tables st !! code with
    | Some _ => (st, Ok tt)
    | None => ({| tables := <[code := value]> (tables st); log := log st |}, Ok tt)
    end.

(** [tables.clear()] *)
Definition clear : ctor unit :=
  fun st => ({| tables := ∅; log := log st |}, Ok tt).

(** The body of the loop over each country/state pair. *)
Definition load_pair (cs : json) : ctor unit :=
  let! country := lift (let* v := rapidjson.member cs "iso3166-1" in rapidjson.GetString v) in
  let code := country in
  let code := code +:+ "." in
  let! state := lift (let* v := rapidjson.member cs "iso3166-2" in rapidjson.GetString v) in
  let code := code +:+ state in
  let! urban_table := lift (let* v := rapidjson.member cs "urban" in SpeedTable_ctor v) in
  let! rural_table := lift (let* v := rapidjson.member cs "rural" in SpeedTable_ctor v) in
  emplace code (urban_table, rural_table).

Fixpoint load_pairs (items : list json) : ctor unit :=
  match items with
  | [] => ctor_ret tt
  | cs :: rest => load_pair cs >> load_pairs rest
  end.

Section Construction.

(** [rapidjson::read_json]: reading and tokenising the file is outside the
    sources at hand; it returns a document or throws. *)
Variable read_json : string -> result exn rapidjson.Document.

(** [SpeedAssigner::SpeedAssigner] *)
Definition SpeedAssigner_ctor (config_file : option string) : ctor unit :=
  match config_file with
  | None => LOG INFO "Disabled default speeds assignment from config"
  | Some file =>
      try_catch
        (let! doc := lift (read_json file) in
         if rapidjson.HasParseError doc then throw (StdException "malformed json")
         else if negb (rapidjson.IsArray (rapidjson.root doc)) then
           throw (StdException "must be a json array")
         else
           let! items := lift (rapidjson.GetArray (rapidjson.root doc)) in
           load_pairs items)
        (fun e =>
           match e with
           | StdException what =>
               LOG WARN ("Disabled default speeds assignment from config: " +:+ what) >>
               clear
           | UnknownException =>
               LOG WARN "Disabled default speeds assignment from config: unknown error" >>
               clear
           end) >>
      LOG INFO ("Enabled default speeds assignment from config: " +:+ file)
  end.

(** A new assigner: the constructor run on the empty table. *)
Definition new_SpeedAssigner (config_file : option string) : ctor_state * result exn unit :=
  SpeedAssigner_ctor config_file {| tables := ∅; log := [] |}.

End Construction.

(** ** The rules of the design document

    The definitions of this part follow the wording of the design document,
    in exact integer arithmetic; the theorems below compare them with the
    code above. *)

(** [speed * (num / 100)] rounded to the nearest integer, halves upward:
    the integer part of [speed * num / 100 + 0.5]. *)
Definition rounded (num speed : Z) : Z := (num * speed + 50) / 100.

(** The largest speed that fits one byte. The rules in exact arithmetic are
    compared with the single precision of the code for the speeds up to it. *)
Definition kMaxSpeedByte : Z := 255.

Section Rules.

Variable K : GraphConstants.

Import DirectedEdge.

Definition is_major (rc : nat) : bool :=
  bool_decide (rc = kMotorway K) || bool_decide (rc = kTrunk K) || bool_decide (rc = kPrimary K).

(** Link edges: turn channels by 1.25 when inferred; untagged ramps by 0.8 for
    motorway, trunk and primary in dense areas, by 0.85 otherwise; every other
    link keeps its speed. *)
Definition link_rule (e : DirectedEdge.t) (density : Z) (infer_turn_channels : bool) : Z :=
  match use e with
  | kTurnChannel =>
      if infer_turn_channels then rounded 125 (speed e) else speed e
  | kRamp =>
      match speed_type e with
      | kTagged => speed e
      | _ => if is_major (classification e) && (8 <? density)
             then rounded 80 (speed e) else rounded 85 (speed e)
      end
  | _ => speed e
  end.

(** Tagged speeds: only the surface reduces them. *)
Definition tagged_rule (e : DirectedEdge.t) : Z :=
  if (kPavedRough K <=? surface e)%nat then
    if 50 <=? speed e then speed e - 10
    else if 15 <? speed e then speed e - 5
    else speed e
  else speed e.

(** The four cumulative steps, on the speed alone. [urban_speed] is the entry
    of the urban table for the class of the edge. *)
Definition urban_step (density urban_speed speed : Z) : Z :=
  if 8 <? density then urban_speed else speed.

Definition roundabout_step (e : DirectedEdge.t) (speed : Z) : Z :=
  if roundabout e then rounded 50 speed else speed.

Definition service_step (e : DirectedEdge.t) (speed : Z) : Z :=
  match use e with
  | kParkingAisle => kParkingAisleSpeed K
  | kDriveway => kDrivewaySpeed K
  | kDriveThru => kDriveThruSpeed K
  | _ => speed
  end.

Definition surface_step (e : DirectedEdge.t) (speed : Z) : Z :=
  if (kPavedRough K <=? surface e)%nat then speed / 2 else speed.

Definition cumulative_rule (e : DirectedEdge.t) (density urban_speed : Z) : Z :=
  surface_step e (service_step e (roundabout_step e (urban_step density urban_speed (speed e)))).

(** The heuristic is reached: no table is loaded, or [FromConfig] returns
    false. *)
Definition not_configured (tables : registry) (e : DirectedEdge.t) (density : Z)
    (country state : string) : Prop :=
  tables = ∅ \/ exists e', FromConfig K tables e density country state = Ok (false, e').

(** The edge reaches the cumulative steps of the heuristic: none of the
    terminal branches (link, tagged, rail ferry, ferry) fires. *)
Definition no_terminal_branch (e : DirectedEdge.t) : Prop :=
  link e = false /\ speed_type e <> kTagged /\ use e <> kRailFerry /\ use e <> kFerry.

(** The uses with an entry of their own in the service array. *)
Definition is_service (u : Use) : bool :=
  match u with
  | kDriveway | kAlley | kParkingAisle | kDriveThru => true
  | _ => false
  end.

End Rules.

(** The code agrees with the rule of factor [num / 100] at the speed [s]. *)
Definition scaled_agrees (factor : spec_float) (num s : Z) : bool :=
  match scaled factor s with
  | Ok v => v =? rounded num s
  | Err _ => false
  end.

(** Every attribute but the speed is the same on both edges. *)
Definition same_but_speed (e e' : DirectedEdge.t) : Prop :=
  DirectedEdge.classification e' = DirectedEdge.classification e
  /\ DirectedEdge.use e' = DirectedEdge.use e
  /\ DirectedEdge.forwardaccess e' = DirectedEdge.forwardaccess e
  /\ DirectedEdge.reverseaccess e' = DirectedEdge.reverseaccess e
  /\ DirectedEdge.link e' = DirectedEdge.link e
  /\ DirectedEdge.roundabout e' = DirectedEdge.roundabout e
  /\ DirectedEdge.sign e' = DirectedEdge.sign e
  /\ DirectedEdge.surface e' = DirectedEdge.surface e
  /\ DirectedEdge.speed_type e' = DirectedEdge.speed_type e
  /\ DirectedEdge.length e' = DirectedEdge.length e
  /\ DirectedEdge.leaves_tile e' = DirectedEdge.leaves_tile e.

(** *** Well-formed configuration documents *)

(** One country/state record of the document. *)
Record ConfigRecord : Type := {
  iso3166_1 : string;
  iso3166_2 : string;
  urban_spec : SpeedTable.t;
  rural_spec : SpeedTable.t
}.

(** The key of a record: country code, a dot, subdivision code. *)
Definition record_key (r : ConfigRecord) : string := (iso3166_1 r +:+ ".") +:+ iso3166_2 r.

Definition record_entry (r : ConfigRecord) : string * table_pair :=
  (record_key r, (urban_spec r, rural_spec r)).

Definition uint32 (z : Z) : Prop := 0 <= z < 2 ^ 32.

(** A json array of unsigned numbers holding exactly the entries of [v]. *)
Definition speeds_json {n : nat} (v : vec Z n) : json := JArray (JInt <$> vec_to_list v).

(** The object [obj] has the shape of a speed table and holds the values of
    [t]: four arrays of 8, 5, 5 and 8 unsigned numbers and four unsigned
    scalars, each under its name. *)
Definition table_shape (obj : json) (t : SpeedTable.t) : Prop :=
  exists members,
    obj = JObject members /\
    rapidjson.FindMember members "way" = Some (speeds_json (SpeedTable.way t)) /\
    rapidjson.FindMember members "link_exiting" = Some (speeds_json (SpeedTable.link_exiting t)) /\
    rapidjson.FindMember members "link_turning" = Some (speeds_json (SpeedTable.link_turning t)) /\
    rapidjson.FindMember members "roundabout" = Some (speeds_json (SpeedTable.roundabout t)) /\
    rapidjson.FindMember members "driveway" = Some (JInt (SpeedTable.service t !!! 0%fin)) /\
    rapidjson.FindMember members "alley" = Some (JInt (SpeedTable.service t !!! 1%fin)) /\
    rapidjson.FindMember members "parking_aisle" = Some (JInt (SpeedTable.service t !!! 2%fin)) /\
    rapidjson.FindMember members "drive-through" = Some (JInt (SpeedTable.service t !!! 3%fin)) /\
    Forall uint32 (vec_to_list (SpeedTable.way t)) /\
    Forall uint32 (vec_to_list (SpeedTable.link_exiting t)) /\
    Forall uint32 (vec_to_list (SpeedTable.link_turning t)) /\
    Forall uint32 (vec_to_list (SpeedTable.roundabout t)) /\
    Forall uint32 (vec_to_list (SpeedTable.service t)).

(** The value [cs] has the shape of a record and holds the values of [r]. *)
Definition record_shape (cs : json) (r : ConfigRecord) : Prop :=
  exists members u_obj r_obj,
    cs = JObject members /\
    rapidjson.FindMember members "iso3166-1" = Some (JString (iso3166_1 r)) /\
    rapidjson.FindMember members "iso3166-2" = Some (JString (iso3166_2 r)) /\
    rapidjson.FindMember members "urban" = Some u_obj /\
    rapidjson.FindMember members "rural" = Some r_obj /\
    table_shape u_obj (urban_spec r) /\
    table_shape r_obj (rural_spec r).

(** A well-formed document: a sequence of records. *)
Definition well_formed (doc : json) (records : list ConfigRecord) : Prop :=
  exists items, doc = JArray items /\ Forall2 record_shape items records.

(** What a read of the configuration file gives when the document is
    malformed: the file cannot be read, its syntax cannot be parsed, or its
    root has not the shape of a sequence of records (a field is missing, an
    array has the wrong length, a value has the wrong type). *)
Definition malformed (read : result exn rapidjson.Document) : Prop :=
  match read with
  | Err _ => True
  | Ok doc =>
      rapidjson.HasParseError doc = true \/
      ~ exists records, well_formed (rapidjson.root doc) records
  end.

(** *** Sample data for the examples *)

Definition sample_constants : GraphConstants :=
  {| kVehicularAccess := 1769;
     kPavedRough := 2;
     kParkingAisleSpeed := 15;
     kDrivewaySpeed := 10;
     kDriveThruSpeed := 10;
     kMotorway := 0;
     kTrunk := 1;
     kPrimary := 2 |}.

(** A plain residential way open to cars, of default speed 60. *)
Definition sample_way : DirectedEdge.t :=
  {| DirectedEdge.classification := 6;
     DirectedEdge.use := kOtherUse 0;
     DirectedEdge.forwardaccess := 1;
     DirectedEdge.reverseaccess := 1;
     DirectedEdge.link := false;
     DirectedEdge.roundabout := false;
     DirectedEdge.sign := false;
     DirectedEdge.surface := 0;
     DirectedEdge.speed := 60;
     DirectedEdge.speed_type := kClassified;
     DirectedEdge.length := 100;
     DirectedEdge.leaves_tile := false |}.

(** A motorway ramp that is also flagged as a roundabout on a rough surface:
    only the ramp factor applies. *)
Definition sample_ramp : DirectedEdge.t :=
  {| DirectedEdge.classification := 0;
     DirectedEdge.use := kRamp;
     DirectedEdge.forwardaccess := 1;
     DirectedEdge.reverseaccess := 0;
     DirectedEdge.link := true;
     DirectedEdge.roundabout := true;
     DirectedEdge.sign := false;
     DirectedEdge.surface := 3;
     DirectedEdge.speed := 100;
     DirectedEdge.speed_type := kClassified;
     DirectedEdge.length := 300;
     DirectedEdge.leaves_tile := false |}.

(** A roundabout of a residential way of default speed 60. *)
Definition sample_roundabout : DirectedEdge.t :=
  {| DirectedEdge.classification := 6;
     DirectedEdge.use := kOtherUse 0;
     DirectedEdge.forwardaccess := 1;
     DirectedEdge.reverseaccess := 1;
     DirectedEdge.link := false;
     DirectedEdge.roundabout := true;
     DirectedEdge.sign := false;
     DirectedEdge.surface := 0;
     DirectedEdge.speed := 60;
     DirectedEdge.speed_type := kClassified;
     DirectedEdge.length := 40;
     DirectedEdge.leaves_tile := false |}.

(** An urban table whose residential entry is 50. *)
Definition sample_urban_rc_speed : list Z := [105; 90; 75; 60; 50; 40; 50; 25].

(** A tagged roundabout driveway on a rough surface, speed 55. *)
Definition sample_tagged : DirectedEdge.t :=
  {| DirectedEdge.classification := 7;
     DirectedEdge.use := kDriveway;
     DirectedEdge.forwardaccess := 1;
     DirectedEdge.reverseaccess := 1;
     DirectedEdge.link := false;
     DirectedEdge.roundabout := true;
     DirectedEdge.sign := false;
     DirectedEdge.surface := 2;
     DirectedEdge.speed := 55;
     DirectedEdge.speed_type := kTagged;
     DirectedEdge.length := 40;
     DirectedEdge.leaves_tile := false |}.

(** A plain way of the class of rank [rc], open to cars, of default speed 60. *)
Definition way_of_class (rc : nat) : DirectedEdge.t :=
  {| DirectedEdge.classification := rc;
     DirectedEdge.use := kOtherUse 0;
     DirectedEdge.forwardaccess := 1;
     DirectedEdge.reverseaccess := 1;
     DirectedEdge.link := false;
     DirectedEdge.roundabout := false;
     DirectedEdge.sign := false;
     DirectedEdge.surface := 0;
     DirectedEdge.speed := 60;
     DirectedEdge.speed_type := kClassified;
     DirectedEdge.length := 100;
     DirectedEdge.leaves_tile := false |}.

(** The tables of the comment at the head of the source file. *)
Definition sample_urban : SpeedTable.t :=
  SpeedTable.mk [# 1; 2; 3; 4; 5; 6; 7; 8] [# 9; 10; 11; 12; 13] [# 15; 16; 17; 18; 19]
    [# 21; 22; 23; 24; 25; 26; 27; 28] [# 29; 30; 31; 32].

Definition sample_rural : SpeedTable.t :=
  SpeedTable.mk [# 33; 34; 35; 36; 37; 38; 39; 40] [# 41; 42; 43; 44; 45] [# 47; 48; 49; 50; 51]
    [# 53; 54; 55; 56; 57; 58; 59; 60] [# 61; 62; 63; 64].

Definition table_json (t : SpeedTable.t) : json :=
  JObject [("way", speeds_json (SpeedTable.way t));
           ("link_exiting", speeds_json (SpeedTable.link_exiting t));
           ("link_turning", speeds_json (SpeedTable.link_turning t));
           ("roundabout", speeds_json (SpeedTable.roundabout t));
           ("driveway", JInt (SpeedTable.service t !!! 0%fin));
           ("alley", JInt (SpeedTable.service t !!! 1%fin));
           ("parking_aisle", JInt (SpeedTable.service t !!! 2%fin));
           ("drive-through", JInt (SpeedTable.service t !!! 3%fin))].

Definition record_json (r : ConfigRecord) : json :=
  JObject [("iso3166-1", JString (iso3166_1 r));
           ("iso3166-2", JString (iso3166_2 r));
           ("urban", table_json (urban_spec r));
           ("rural", table_json (rural_spec r))].

Definition sample_record : ConfigRecord :=
  {| iso3166_1 := "us"; iso3166_2 := "pa"; urban_spec := sample_urban; rural_spec := sample_rural |}.

(** The same country and state a second time, with the two tables swapped. *)
Definition sample_repeat : ConfigRecord :=
  {| iso3166_1 := "us"; iso3166_2 := "pa"; urban_spec := sample_rural; rural_spec := sample_urban |}.

Definition sample_registry : registry := {[ record_key sample_record := (sample_urban, sample_rural) ]}.

(** The document of the comment at the head of the source file. *)
Definition sample_doc : json := JArray [record_json sample_record].

(** A document with the same country and state twice. *)
Definition repeat_doc : json := JArray [record_json sample_record; record_json sample_repeat].

(** A record whose urban table has a way array of two speeds. *)
Definition short_way_doc : json :=
  JArray [JObject [("iso3166-1", JString "us");
                   ("iso3166-2", JString "pa");
                   ("urban", JObject [("way", JArray [JInt 1; JInt 2])]);
                   ("rural", table_json sample_rural)]].

(** A record without subdivision code. *)
Definition no_state_doc : json :=
  JArray [JObject [("iso3166-1", JString "us");
                   ("urban", table_json sample_urban);
                   ("rural", table_json sample_rural)]].

(** A file system with one readable file for each document. *)
Definition read_as (doc : json) (file : string) : result exn rapidjson.Document :=
  Ok {| rapidjson.HasParseError := false; rapidjson.root := doc |}.

(** ** The instance of the process *)

(** The state of the function-local static of [GetInstance]: the assigner
    once it is constructed, and the lines logged so far. *)
Record process : Type := {
  assigner : option registry;
  process_log : list (log_level * string)
}.

Section Instance.

Variable read_json : string -> result exn rapidjson.Document.

(** [SpeedAssigner::GetInstance]: [static SpeedAssigner assigner(config_file)]
    runs the constructor the first time control passes through it and never
    again once it has completed; an exception of the constructor leaves the
    static unconstructed. The table of the assigner is what is returned. *)
Definition GetInstance (config_file : option string) (p : process)
    : process * result exn registry :=
  match assigner p with
  | Some instance => (p, Ok instance)
  | None =>
      match new_SpeedAssigner read_json config_file with
      | (st, Ok _) =>
          ({| assigner := Some (tables st); process_log := process_log p ++ log st |},
           Ok (tables st))
      | (st, Err e) =>
          ({| assigner := None; process_log := process_log p ++ log st |}, Err e)
      end
  end.

End Instance.

(** ** Notions for the further properties *)

(** All the speeds a table holds. *)
Definition table_entries (t : SpeedTable.t) : list Z :=
  vec_to_list (SpeedTable.way t) ++ vec_to_list (SpeedTable.link_exiting t)
  ++ vec_to_list (SpeedTable.link_turning t) ++ vec_to_list (SpeedTable.roundabout t)
  ++ vec_to_list (SpeedTable.service t).

(** The attributes [FromConfig] reads. *)
Definition config_attributes_agree (e1 e2 : DirectedEdge.t) : Prop :=
  DirectedEdge.classification e1 = DirectedEdge.classification e2
  /\ DirectedEdge.use e1 = DirectedEdge.use e2
  /\ DirectedEdge.forwardaccess e1 = DirectedEdge.forwardaccess e2
  /\ DirectedEdge.reverseaccess e1 = DirectedEdge.reverseaccess e2
  /\ DirectedEdge.link e1 = DirectedEdge.link e2
  /\ DirectedEdge.roundabout e1 = DirectedEdge.roundabout e2
  /\ DirectedEdge.sign e1 = DirectedEdge.sign e2.

(** Two calls of [FromConfig] end alike: the same fault, or the same flag
    and, when the flag is true, the same speed on the edge. *)
Definition same_resolution (r1 r2 : result fault (bool * DirectedEdge.t)) : Prop :=
  match r1, r2 with
  | Ok (b1, e1), Ok (b2, e2) =>
      b1 = b2 /\ (b1 = true -> DirectedEdge.speed e1 = DirectedEdge.speed e2)
  | Err f1, Err f2 => f1 = f2
  | _, _ => False
  end.

(** The edges no table resolves: those [FromConfig] leaves to the heuristic
    at once, and the links of the classes without link speeds. *)
Definition never_from_config (K : GraphConstants) (e : DirectedEdge.t) : Prop :=
  not_from_config K e = true
  \/ (is_service (DirectedEdge.use e) = false
      /\ DirectedEdge.link e = true
      /\ (5 <= DirectedEdge.classification e)%nat).

(** A ferry of the given length. *)
Definition sample_ferry (length : Z) (leaves_tile : bool) : DirectedEdge.t :=
  {| DirectedEdge.classification := 2;
     DirectedEdge.use := kFerry;
     DirectedEdge.forwardaccess := 1;
     DirectedEdge.reverseaccess := 1;
     DirectedEdge.link := false;
     DirectedEdge.roundabout := false;
     DirectedEdge.sign := false;
     DirectedEdge.surface := 0;
     DirectedEdge.speed := 40;
     DirectedEdge.speed_type := kClassified;
     DirectedEdge.length := length;
     DirectedEdge.leaves_tile := leaves_tile |}.

(** A rail ferry on a rough surface in a dense area. *)
Definition sample_rail_ferry : DirectedEdge.t :=
  {| DirectedEdge.classification := 2;
     DirectedEdge.use := kRailFerry;
     DirectedEdge.forwardaccess := 1;
     DirectedEdge.reverseaccess := 1;
     DirectedEdge.link := false;
     DirectedEdge.roundabout := false;
     DirectedEdge.sign := false;
     DirectedEdge.surface := 4;
     DirectedEdge.speed := 40;
     DirectedEdge.speed_type := kClassified;
     DirectedEdge.length := 25000;
     DirectedEdge.leaves_tile := false |}.

(** A turn channel of a residential road, speed 60. *)
Definition sample_turn_channel : DirectedEdge.t :=
  {| DirectedEdge.classification := 6;
     DirectedEdge.use := kTurnChannel;
     DirectedEdge.forwardaccess := 1;
     DirectedEdge.reverseaccess := 0;
     DirectedEdge.link := true;
     DirectedEdge.roundabout := false;
     DirectedEdge.sign := false;
     DirectedEdge.surface := 0;
     DirectedEdge.speed := 60;
     DirectedEdge.speed_type := kClassified;
     DirectedEdge.length := 30;
     DirectedEdge.leaves_tile := false |}.

(** The process before the first call of [GetInstance]. *)
Definition fresh_process : process := {| assigner := None; process_log := [] |}.

(** * Properties *)

(** ** The composition of [UpdateSpeed] *)

Section AssignFacts.

Variable K : GraphConstants.

Import DirectedEdge.

Lemma set_speed_same (e : DirectedEdge.t) : set_speed e (speed e) = e.
Proof. by destruct e. Qed.

Lemma bind_ok {E A B} (m : result E A) (k : A -> result E B) (b : B) :
  bind m k = Ok b -> exists a, m = Ok a /\ k a = Ok b.
Proof. destruct m as [a|x]; simpl; [eauto | discriminate]. Qed.

(** A table read succeeds exactly below the size of the table. *)
Lemma at_index_ok {n : nat} (arr : vec Z n) (i : nat) :
  (i < n)%nat -> exists v, vec_to_list arr !! i = Some v /\ at_index arr i = Ok v.
Proof.
  intros Hi. unfold at_index.
  destruct (lookup_lt_is_Some_2 (vec_to_list arr) i) as [v Hv].
  - by rewrite length_vec_to_list.
  - exists v. by rewrite Hv.
Qed.

Lemma at_index_out {n : nat} (arr : vec Z n) (i : nat) :
  (n <= i)%nat -> at_index arr i = Err OutOfBounds.
Proof.
  intros Hi. unfold at_index.
  rewrite lookup_ge_None_2; [done | by rewrite length_vec_to_list].
Qed.

Lemma at_index_fault {n : nat} (arr : vec Z n) (i : nat) :
  at_index arr i = Err OutOfBounds <-> (n <= i)%nat.
Proof.
  split; [| apply at_index_out].
  intros H. destruct (decide (i < n)%nat) as [Hi|Hi]; [| lia].
  destruct (at_index_ok arr i Hi) as (v & _ & Hv). congruence.
Qed.

Lemma at_pointer_fault (arr : list Z) (i : nat) :
  at_pointer arr i = Err OutOfBounds <-> (Datatypes.length arr <= i)%nat.
Proof.
  unfold at_pointer. destruct (arr !! i) eqn:Hl.
  - apply lookup_lt_Some in Hl. split; [discriminate | lia].
  - apply lookup_ge_None in Hl. by split.
Qed.

(** [FromConfig] only ever returns false with the edge as it was. *)
Lemma from_table_false (speed_table : SpeedTable.t) (e e' : DirectedEdge.t) :
  from_table speed_table e = Ok (false, e') -> e' = e.
Proof.
  unfold from_table.
  destruct (use e), (link e), (5 <=? classification e)%nat, (sign e), (roundabout e);
    simpl; intros H; try congruence;
    apply bind_ok in H as (v & _ & H); congruence.
Qed.

Lemma FromConfig_false (tables : registry) (e e' : DirectedEdge.t) (density : Z)
    (country state : string) :
  FromConfig K tables e density country state = Ok (false, e') -> e' = e.
Proof.
  unfold FromConfig.
  destruct (not_from_config K e); [congruence |].
  destruct (find_tables tables country state); [apply from_table_false | congruence].
Qed.

Lemma UpdateSpeed_configured (tables : registry) (e e' : DirectedEdge.t) (density : Z)
    (urban_rc_speed : list Z) (infer : bool) (country state : string) :
  tables <> ∅ ->
  FromConfig K tables e density country state = Ok (true, e') ->
  UpdateSpeed K tables e density urban_rc_speed infer country state = Ok e'.
Proof.
  intros Hne Hcfg. unfold UpdateSpeed.
  rewrite bool_decide_eq_false_2 by done. by rewrite Hcfg.
Qed.

Lemma UpdateSpeed_heuristic (tables : registry) (e : DirectedEdge.t) (density : Z)
    (urban_rc_speed : list Z) (infer : bool) (country state : string) :
  not_configured K tables e density country state ->
  UpdateSpeed K tables e density urban_rc_speed infer country state
  = heuristic K e density urban_rc_speed infer.
Proof.
  intros [Hempty | [e' Hcfg]]; unfold UpdateSpeed.
  - by rewrite bool_decide_eq_true_2.
  - destruct (bool_decide (tables = ∅)); [done |].
    rewrite Hcfg. simpl. by rewrite (FromConfig_false _ _ _ _ _ _ Hcfg).
Qed.

End AssignFacts.

(** C1. For every edge: when the table of overrides is not empty and
    [FromConfig] resolves the edge (returns true), [UpdateSpeed] returns at
    once with the edge as [FromConfig] left it and no step of the heuristic
    is applied; when the table is empty or [FromConfig] returns false, the
    result is that of the heuristic waterfall on that edge. *)
Theorem C1_config_then_heuristic :
  forall (K : GraphConstants) (tables : registry) (e : DirectedEdge.t) (density : Z)
         (urban_rc_speed : list Z) (infer : bool) (country state : string),
    (forall e', tables <> ∅ ->
                FromConfig K tables e density country state = Ok (true, e') ->
                UpdateSpeed K tables e density urban_rc_speed infer country state = Ok e')
    /\ (tables = ∅ \/ (exists e', FromConfig K tables e density country state = Ok (false, e')) ->
        UpdateSpeed K tables e density urban_rc_speed infer country state
        = heuristic K e density urban_rc_speed infer).
Proof.
  intros. split.
  - intros e'. apply UpdateSpeed_configured.
  - apply UpdateSpeed_heuristic.
Qed.

Lemma C1_config_then_heuristic_witness :
  UpdateSpeed sample_constants sample_registry sample_way 5 [] false "us" "pa"
  = Ok (DirectedEdge.set_speed sample_way 39)
  /\ UpdateSpeed sample_constants ∅ sample_way 5 [] false "us" "pa"
     = heuristic sample_constants sample_way 5 [] false.
Proof.
  split.
  - apply (proj1 (C1_config_then_heuristic sample_constants sample_registry sample_way 5 []
                    false "us" "pa")).
    + apply map_non_empty_singleton.
    + reflexivity.
  - apply (proj2 (C1_config_then_heuristic sample_constants ∅ sample_way 5 [] false "us" "pa")).
    left. reflexivity.
Defined.

(** ** The override path *)

Section ConfigFacts.

Variable K : GraphConstants.

Import DirectedEdge.

Lemma not_from_config_true (e : DirectedEdge.t) :
  use e = kFerry \/ use e = kRailFerry
  \/ Z.land (Z.lor (forwardaccess e) (reverseaccess e)) (kVehicularAccess K) = 0 ->
  not_from_config K e = true.
Proof.
  unfold not_from_config. intros [H | [H | H]].
  - by rewrite bool_decide_eq_true_2.
  - rewrite (bool_decide_eq_true_2 (use e = kRailFerry)) by done.
    by rewrite orb_true_r.
  - apply Z.eqb_eq in H. rewrite H. by rewrite orb_true_r.
Qed.

(** The first key found, in the order exact, country only, global. *)
Lemma find_tables_order (tables : registry) (country state : string) (found : table_pair) :
  tables !! ((country +:+ ".") +:+ state) = Some found
  \/ (tables !! ((country +:+ ".") +:+ state) = None
      /\ tables !! (country +:+ ".") = Some found)
  \/ (tables !! ((country +:+ ".") +:+ state) = None
      /\ tables !! (country +:+ ".") = None
      /\ tables !! "" = Some found) ->
  find_tables tables country state = Some found.
Proof.
  unfold find_tables.
  intros [H1 | [[H1 H2] | (H1 & H2 & H3)]]; rewrite H1; [done | |]; by rewrite H2.
Qed.

Lemma find_tables_none (tables : registry) (country state : string) :
  tables !! ((country +:+ ".") +:+ state) = None ->
  tables !! (country +:+ ".") = None ->
  tables !! "" = None ->
  find_tables tables country state = None.
Proof. unfold find_tables. by intros -> -> ->. Qed.

Lemma FromConfig_found (tables : registry) (e : DirectedEdge.t) (density : Z)
    (country state : string) (found : table_pair) :
  not_from_config K e = false ->
  find_tables tables country state = Some found ->
  FromConfig K tables e density country state = from_table (pair_at found (density <=? 8)) e.
Proof. unfold FromConfig. by intros -> ->. Qed.

End ConfigFacts.

(** C2. [FromConfig] returns false and leaves the edge as it is whenever
    the use of the edge is ferry or rail ferry, or the bitwise or of its
    forward and reverse access masks has no vehicular access bit, or none of
    the keys country.state, country. and the empty key is in the table. When
    several of these keys are present, the first one in that order is the one
    used: with the keys us.pa, us. and the empty key, the query (us, ca) uses
    the entry of us. and the query (fr, empty) uses the global entry. *)
Theorem C2_not_resolved_and_lookup_order :
  forall (K : GraphConstants) (tables : registry) (e : DirectedEdge.t) (density : Z)
         (country state : string),
    (DirectedEdge.use e = kFerry
     \/ DirectedEdge.use e = kRailFerry
     \/ Z.land (Z.lor (DirectedEdge.forwardaccess e) (DirectedEdge.reverseaccess e))
               (kVehicularAccess K) = 0
     \/ (tables !! ((country +:+ ".") +:+ state) = None
         /\ tables !! (country +:+ ".") = None
         /\ tables !! "" = None) ->
     FromConfig K tables e density country state = Ok (false, e))
    /\ (forall found : table_pair,
          not_from_config K e = false ->
          tables !! ((country +:+ ".") +:+ state) = Some found
          \/ (tables !! ((country +:+ ".") +:+ state) = None
              /\ tables !! (country +:+ ".") = Some found)
          \/ (tables !! ((country +:+ ".") +:+ state) = None
              /\ tables !! (country +:+ ".") = None
              /\ tables !! "" = Some found) ->
          FromConfig K tables e density country state
          = from_table (pair_at found (density <=? 8)) e)
    /\ (forall T1 T2 T3 : table_pair,
          find_tables {[ "us.pa" := T1; "us." := T2; "" := T3 ]} "us" "ca" = Some T2
          /\ find_tables {[ "us.pa" := T1; "us." := T2; "" := T3 ]} "fr" "" = Some T3).
Proof.
  intros K tables e density country state. split; [| split].
  - intros H. unfold FromConfig.
    destruct (not_from_config K e) eqn:Hexcl; [done |].
    destruct H as [H | [H | [H | (H1 & H2 & H3)]]].
    + rewrite not_from_config_true in Hexcl; [done | auto].
    + rewrite not_from_config_true in Hexcl; [done | auto].
    + rewrite not_from_config_true in Hexcl; [done | auto].
    + by rewrite find_tables_none.
  - intros found Hexcl Hfound. apply FromConfig_found; [done |].
    by apply find_tables_order.
  - intros T1 T2 T3. split.
    + apply find_tables_order. right. left. simpl. split.
      * by rewrite !lookup_insert_ne.
      * rewrite lookup_insert_ne by done. by rewrite lookup_insert_eq.
    + apply find_tables_order. right. right. simpl.
      split; [| split]; by rewrite !lookup_insert_ne.
Qed.

Lemma C2_not_resolved_and_lookup_order_witness :
  FromConfig sample_constants sample_registry sample_way 5 "fr" "" = Ok (false, sample_way)
  /\ FromConfig sample_constants sample_registry sample_way 5 "us" "pa"
     = from_table (pair_at (sample_urban, sample_rural) (5 <=? 8)) sample_way.
Proof.
  split.
  - apply (proj1 (C2_not_resolved_and_lookup_order sample_constants sample_registry sample_way
                    5 "fr" "")).
    right. right. right. split; [| split]; reflexivity.
  - apply (proj1 (proj2 (C2_not_resolved_and_lookup_order sample_constants sample_registry
                           sample_way 5 "us" "pa"))).
    + reflexivity.
    + left. reflexivity.
Defined.

(** C3. When [FromConfig] finds an entry for an edge that is not excluded,
    it selects the rural table if the density is at most 8 and the urban one
    above 8, then applies the first branch that fits, each one final: the
    uses driveway, alley, parking aisle and drive-through take the entries 0,
    1, 2 and 3 of the service array and return true; else a link of rank 5 or
    more returns false with the edge unchanged, and a link of lower rank takes
    the exiting entry of its rank if it carries a sign and the turning entry
    otherwise, returning true; else a roundabout takes the roundabout entry of
    its rank; every other edge takes the way entry of its rank; both return
    true. Ranks are those of the eight road classes. *)
Theorem C3_table_selection_and_branches :
  forall (K : GraphConstants) (tables : registry) (e : DirectedEdge.t) (density : Z)
         (country state : string) (found : table_pair) (speed_table : SpeedTable.t),
    not_from_config K e = false ->
    find_tables tables country state = Some found ->
    speed_table = (if density <=? 8 then rural found else urban found) ->
    (DirectedEdge.use e = kDriveway ->
     FromConfig K tables e density country state
     = Ok (true, DirectedEdge.set_speed e (SpeedTable.service speed_table !!! 0%fin)))
    /\ (DirectedEdge.use e = kAlley ->
        FromConfig K tables e density country state
        = Ok (true, DirectedEdge.set_speed e (SpeedTable.service speed_table !!! 1%fin)))
    /\ (DirectedEdge.use e = kParkingAisle ->
        FromConfig K tables e density country state
        = Ok (true, DirectedEdge.set_speed e (SpeedTable.service speed_table !!! 2%fin)))
    /\ (DirectedEdge.use e = kDriveThru ->
        FromConfig K tables e density country state
        = Ok (true, DirectedEdge.set_speed e (SpeedTable.service speed_table !!! 3%fin)))
    /\ (is_service (DirectedEdge.use e) = false ->
        DirectedEdge.link e = true ->
        (5 <= DirectedEdge.classification e)%nat ->
        FromConfig K tables e density country state = Ok (false, e))
    /\ (is_service (DirectedEdge.use e) = false ->
        DirectedEdge.link e = true ->
        (DirectedEdge.classification e < 5)%nat ->
        DirectedEdge.sign e = true ->
        exists v,
          vec_to_list (SpeedTable.link_exiting speed_table) !! DirectedEdge.classification e
          = Some v
          /\ FromConfig K tables e density country state
             = Ok (true, DirectedEdge.set_speed e v))
    /\ (is_service (DirectedEdge.use e) = false ->
        DirectedEdge.link e = true ->
        (DirectedEdge.classification e < 5)%nat ->
        DirectedEdge.sign e = false ->
        exists v,
          vec_to_list (SpeedTable.link_turning speed_table) !! DirectedEdge.classification e
          = Some v
          /\ FromConfig K tables e density country state
             = Ok (true, DirectedEdge.set_speed e v))
    /\ (is_service (DirectedEdge.use e) = false ->
        DirectedEdge.link e = false ->
        DirectedEdge.roundabout e = true ->
        (DirectedEdge.classification e <= 7)%nat ->
        exists v,
          vec_to_list (SpeedTable.roundabout speed_table) !! DirectedEdge.classification e
          = Some v
          /\ FromConfig K tables e density country state
             = Ok (true, DirectedEdge.set_speed e v))
    /\ (is_service (DirectedEdge.use e) = false ->
        DirectedEdge.link e = false ->
        DirectedEdge.roundabout e = false ->
        (DirectedEdge.classification e <= 7)%nat ->
        exists v,
          vec_to_list (SpeedTable.way speed_table) !! DirectedEdge.classification e
          = Some v
          /\ FromConfig K tables e density country state
             = Ok (true, DirectedEdge.set_speed e v)).
Proof.
  intros K tables e density country state found speed_table Hexcl Hfound ->.
  rewrite (FromConfig_found K tables e density country state found Hexcl Hfound).
  change (if density <=? 8 then rural found else urban found)
    with (pair_at found (density <=? 8)).
  generalize (pair_at found (density <=? 8)). intros T.
  unfold from_table.
  repeat split.
  - by intros ->.
  - by intros ->.
  - by intros ->.
  - by intros ->.
  - intros Hs -> Hrc. apply Nat.leb_le in Hrc. rewrite Hrc.
    by destruct (DirectedEdge.use e).
  - intros Hs -> Hrc ->. apply Nat.leb_gt in Hrc. rewrite Hrc.
    destruct (at_index_ok (SpeedTable.link_exiting T) (DirectedEdge.classification e))
      as (v & Hv & Hat); [apply Nat.leb_gt in Hrc; lia |].
    exists v. split; [done |]. rewrite Hat. by destruct (DirectedEdge.use e).
  - intros Hs -> Hrc ->. apply Nat.leb_gt in Hrc. rewrite Hrc.
    destruct (at_index_ok (SpeedTable.link_turning T) (DirectedEdge.classification e))
      as (v & Hv & Hat); [apply Nat.leb_gt in Hrc; lia |].
    exists v. split; [done |]. rewrite Hat. by destruct (DirectedEdge.use e).
  - intros Hs -> -> Hrc.
    destruct (at_index_ok (SpeedTable.roundabout T) (DirectedEdge.classification e))
      as (v & Hv & Hat); [lia |].
    exists v. split; [done |]. rewrite Hat. by destruct (DirectedEdge.use e).
  - intros Hs -> -> Hrc.
    destruct (at_index_ok (SpeedTable.way T) (DirectedEdge.classification e))
      as (v & Hv & Hat); [lia |].
    exists v. split; [done |]. rewrite Hat. by destruct (DirectedEdge.use e).
Qed.

(** At density 8 the rural table is read, at density 9 the urban one. *)
Lemma C3_table_selection_and_branches_witness :
  (exists v,
     vec_to_list (SpeedTable.way sample_rural) !! DirectedEdge.classification sample_way = Some v
     /\ FromConfig sample_constants sample_registry sample_way 8 "us" "pa"
        = Ok (true, DirectedEdge.set_speed sample_way v))
  /\ (exists v,
        vec_to_list (SpeedTable.way sample_urban) !! DirectedEdge.classification sample_way
        = Some v
        /\ FromConfig sample_constants sample_registry sample_way 9 "us" "pa"
           = Ok (true, DirectedEdge.set_speed sample_way v)).
Proof.
  split.
  - apply (C3_table_selection_and_branches sample_constants sample_registry sample_way 8
             "us" "pa" (sample_urban, sample_rural) sample_rural);
      try reflexivity.
    simpl. lia.
  - apply (C3_table_selection_and_branches sample_constants sample_registry sample_way 9
             "us" "pa" (sample_urban, sample_rural) sample_urban);
      try reflexivity.
    simpl. lia.
Defined.

(** ** Single precision against exact arithmetic *)

Lemma scaled_agrees_sound (factor : spec_float) (num : Z) :
  forallb (scaled_agrees factor num) (seqZ 0 (kMaxSpeedByte + 1)) = true ->
  forall s, 0 <= s <= kMaxSpeedByte -> scaled factor s = Ok (rounded num s).
Proof.
  intros Hall s Hs. rewrite forallb_forall in Hall.
  assert (Hin : In s (seqZ 0 (kMaxSpeedByte + 1))).
  { apply list_elem_of_In, elem_of_seqZ. lia. }
  specialize (Hall s Hin). unfold scaled_agrees in Hall.
  destruct (scaled factor s) as [v|]; [| discriminate].
  apply Z.eqb_eq in Hall. by subst.
Qed.

(** Up to the speed 255 the single precision products, rounded by adding
    0.5f and truncating, are the exactly rounded ones. *)
Lemma scaled_turn_channel (s : Z) :
  0 <= s <= kMaxSpeedByte -> scaled kTurnChannelFactor s = Ok (rounded 125 s).
Proof. apply scaled_agrees_sound. by vm_compute. Qed.

Lemma scaled_ramp_density (s : Z) :
  0 <= s <= kMaxSpeedByte -> scaled kRampDensityFactor s = Ok (rounded 80 s).
Proof. apply scaled_agrees_sound. by vm_compute. Qed.

Lemma scaled_ramp (s : Z) :
  0 <= s <= kMaxSpeedByte -> scaled kRampFactor s = Ok (rounded 85 s).
Proof. apply scaled_agrees_sound. by vm_compute. Qed.

Lemma scaled_roundabout (s : Z) :
  0 <= s <= kMaxSpeedByte -> scaled kRoundaboutFactor s = Ok (rounded 50 s).
Proof. apply scaled_agrees_sound. by vm_compute. Qed.

(** The float literals are the correctly rounded decimals. *)
Lemma factors_nearest :
  kTurnChannelFactor = SFdiv Float32.prec Float32.emax (Float32.of_uint32 125) (Float32.of_uint32 100)
  /\ kRampDensityFactor = SFdiv Float32.prec Float32.emax (Float32.of_uint32 8) (Float32.of_uint32 10)
  /\ kRampFactor = SFdiv Float32.prec Float32.emax (Float32.of_uint32 85) (Float32.of_uint32 100)
  /\ kRoundaboutFactor = SFdiv Float32.prec Float32.emax (Float32.of_uint32 5) (Float32.of_uint32 10).
Proof. by vm_compute. Qed.

(** ** The heuristic *)

Section HeuristicFacts.

Variable K : GraphConstants.

Import DirectedEdge.

Lemma set_speed_twice (e : DirectedEdge.t) (a b : Z) :
  set_speed (set_speed e a) b = set_speed e b.
Proof. done. Qed.

(** The link rule in the arithmetic of the code is the exact one up to the
    speed 255. *)
Lemma link_speed_exact (e : DirectedEdge.t) (density : Z) (infer : bool) :
  0 <= speed e <= kMaxSpeedByte ->
  link_speed K e density infer = Ok (link_rule K e density infer).
Proof.
  intros Hs. unfold link_speed, link_rule, is_major.
  destruct (use e) eqn:Hu; simpl;
    try (by rewrite ?bool_decide_eq_false_2 by done).
  - (* ramp *)
    destruct (speed_type e); simpl; [done |].
    rewrite Z.gtb_ltb.
    destruct (bool_decide (classification e = kMotorway K) || bool_decide (classification e = kTrunk K)
              || bool_decide (classification e = kPrimary K)); simpl.
    + destruct (8 <? density); [by apply scaled_ramp_density | by apply scaled_ramp].
    + by apply scaled_ramp.
  - (* turn channel *)
    destruct infer; simpl; [by apply scaled_turn_channel | done].
Qed.

Lemma heuristic_link (e : DirectedEdge.t) (density : Z) (urban_rc_speed : list Z) (infer : bool) :
  link e = true ->
  heuristic K e density urban_rc_speed infer
  = bind (link_speed K e density infer) (fun v => Ok (set_speed e v)).
Proof. unfold heuristic. by intros ->. Qed.

Lemma heuristic_tagged (e : DirectedEdge.t) (density : Z) (urban_rc_speed : list Z) (infer : bool) :
  link e = false ->
  speed_type e = kTagged ->
  heuristic K e density urban_rc_speed infer = Ok (set_speed e (tagged_rule K e)).
Proof.
  unfold heuristic, tagged_rule. intros -> ->. simpl.
  destruct (kPavedRough K <=? surface e)%nat; [| by rewrite set_speed_same].
  destruct (50 <=? speed e); [done |].
  destruct (15 <? speed e); [done |]. by rewrite set_speed_same.
Qed.

(** The four cumulative steps as the code applies them, when the urban read
    is in bounds and gives [u]. *)
Lemma heuristic_cumulative (e : DirectedEdge.t) (density : Z) (urban_rc_speed : list Z)
    (infer : bool) (u : Z) :
  no_terminal_branch e ->
  (8 < density -> urban_rc_speed !! classification e = Some u) ->
  (roundabout e = true -> 0 <= urban_step density u (speed e) <= kMaxSpeedByte) ->
  heuristic K e density urban_rc_speed infer
  = Ok (set_speed e (cumulative_rule K e density u)).
Proof.
  intros (Hlink & Htag & Hrail & Hferry) Hu Hround.
  unfold heuristic, cumulative_rule.
  rewrite Hlink.
  rewrite !bool_decide_eq_false_2 by done.
  rewrite Z.gtb_ltb. unfold urban_step in *.
  assert (Hstep1 :
    (if 8 <? density
     then bind (at_pointer urban_rc_speed (classification e)) (fun v => Ok (set_speed e v))
     else Ok e)
    = Ok (set_speed e (if 8 <? density then u else speed e))).
  { destruct (8 <? density) eqn:Hd; [| by rewrite set_speed_same].
    unfold at_pointer. rewrite Hu; [done | by apply Z.ltb_lt]. }
  rewrite Hstep1. simpl.
  set (s1 := if 8 <? density then u else speed e) in *.
  unfold roundabout_step, service_step, surface_step.
  destruct (roundabout e) eqn:Hr; simpl.
  - rewrite scaled_roundabout by auto. simpl.
    destruct (use e); simpl; by destruct (kPavedRough K <=? surface e)%nat.
  - destruct (use e); simpl; by destruct (kPavedRough K <=? surface e)%nat.
Qed.

End HeuristicFacts.

(** C5. For every link edge the heuristic ends in its first branch. In the
    arithmetic of the code the result is the edge with the speed of the link
    rule and nothing else applied. Up to the speed 255 this speed is: for a
    turn channel with inference enabled, the speed times 1.25 rounded by
    adding 0.5 and truncating; for a ramp whose speed is not tagged, the speed
    times 0.8 when the class is motorway, trunk or primary and the density is
    above 8, and times 0.85 otherwise, rounded the same way; the unchanged
    speed in every other case. A motorway ramp of untagged speed 100 gets 80
    at density 9 and 85 at density 5; a turn channel of speed 60 gets 75 with
    inference enabled. *)
Theorem C5_link_branch_is_final :
  forall (K : GraphConstants) (tables : registry) (e : DirectedEdge.t) (density : Z)
         (urban_rc_speed : list Z) (infer : bool) (country state : string),
    DirectedEdge.link e = true ->
    not_configured K tables e density country state ->
    UpdateSpeed K tables e density urban_rc_speed infer country state
    = bind (link_speed K e density infer) (fun v => Ok (DirectedEdge.set_speed e v))
    /\ (0 <= DirectedEdge.speed e <= kMaxSpeedByte ->
        UpdateSpeed K tables e density urban_rc_speed infer country state
        = Ok (DirectedEdge.set_speed e (link_rule K e density infer)))
    /\ (~ (DirectedEdge.use e = kTurnChannel /\ infer = true) ->
        ~ (DirectedEdge.use e = kRamp /\ DirectedEdge.speed_type e <> kTagged) ->
        UpdateSpeed K tables e density urban_rc_speed infer country state = Ok e)
    /\ (DirectedEdge.use e = kRamp ->
        DirectedEdge.speed_type e <> kTagged ->
        DirectedEdge.classification e = kMotorway K ->
        DirectedEdge.speed e = 100 ->
        (density = 9 ->
         UpdateSpeed K tables e density urban_rc_speed infer country state
         = Ok (DirectedEdge.set_speed e 80))
        /\ (density = 5 ->
            UpdateSpeed K tables e density urban_rc_speed infer country state
            = Ok (DirectedEdge.set_speed e 85)))
    /\ (DirectedEdge.use e = kTurnChannel ->
        infer = true ->
        DirectedEdge.speed e = 60 ->
        UpdateSpeed K tables e density urban_rc_speed infer country state
        = Ok (DirectedEdge.set_speed e 75)).
Proof.
  intros K tables e density urban_rc_speed infer country state Hlink Hcfg.
  rewrite (UpdateSpeed_heuristic K tables e density urban_rc_speed infer country state Hcfg).
  rewrite (heuristic_link K e density urban_rc_speed infer Hlink).
  assert (Hexact : 0 <= DirectedEdge.speed e <= kMaxSpeedByte ->
                   bind (link_speed K e density infer) (fun v => Ok (DirectedEdge.set_speed e v))
                   = Ok (DirectedEdge.set_speed e (link_rule K e density infer))).
  { intros Hs. by rewrite link_speed_exact. }
  split; [done |]. split; [done |]. split; [| split].
  - intros Htc Hramp. unfold link_speed.
    destruct (decide (DirectedEdge.use e = kTurnChannel)) as [Hu|Hu].
    + rewrite bool_decide_eq_true_2 by done.
      destruct infer; [by destruct Htc |].
      simpl. rewrite (bool_decide_eq_false_2 (DirectedEdge.use e = kRamp)) by congruence.
      simpl. by rewrite set_speed_same.
    + rewrite bool_decide_eq_false_2 by done. simpl.
      destruct (decide (DirectedEdge.use e = kRamp)) as [Hr|Hr].
      * rewrite bool_decide_eq_true_2 by done.
        destruct (decide (DirectedEdge.speed_type e = kTagged)) as [Ht|Ht].
        -- rewrite bool_decide_eq_true_2 by done. simpl. by rewrite set_speed_same.
        -- by destruct Hramp.
      * rewrite bool_decide_eq_false_2 by done. simpl. by rewrite set_speed_same.
  - intros Hu Ht Hrc Hs.
    assert (Hmajor : is_major K (DirectedEdge.classification e) = true).
    { unfold is_major. by rewrite bool_decide_eq_true_2. }
    rewrite Hexact by (rewrite Hs; unfold kMaxSpeedByte; lia).
    unfold link_rule. rewrite Hu, Hmajor, Hs.
    destruct (DirectedEdge.speed_type e); [done |].
    split; by intros ->.
  - intros Hu -> Hs.
    rewrite Hexact by (rewrite Hs; unfold kMaxSpeedByte; lia).
    unfold link_rule. by rewrite Hu, Hs.
Qed.

Lemma C5_link_branch_is_final_witness :
  UpdateSpeed sample_constants ∅ sample_ramp 9 [] false "us" "pa"
  = Ok (DirectedEdge.set_speed sample_ramp 80)
  /\ UpdateSpeed sample_constants ∅ sample_ramp 5 [] false "us" "pa"
     = Ok (DirectedEdge.set_speed sample_ramp 85).
Proof.
  split.
  - apply (C5_link_branch_is_final sample_constants ∅ sample_ramp 9 [] false "us" "pa");
      try reflexivity; try discriminate; try (left; reflexivity).
  - apply (C5_link_branch_is_final sample_constants ∅ sample_ramp 5 [] false "us" "pa");
      try reflexivity; try discriminate; try (left; reflexivity).
Defined.

(** C6. For every edge that is not a link and whose speed is tagged, the
    heuristic changes the speed by the surface rule only and returns: on a
    surface of rank rough paved or worse it subtracts 10 from a speed of 50
    or more, else 5 from a speed above 15, and leaves lower speeds as they
    are (55 gives 45, 40 gives 35, 10 stays 10); on a better surface the edge
    is unchanged. Neither the urban table, nor the roundabout factor, nor the
    service speeds, nor the halving apply. *)
Theorem C6_tagged_surface_only :
  forall (K : GraphConstants) (tables : registry) (e : DirectedEdge.t) (density : Z)
         (urban_rc_speed : list Z) (infer : bool) (country state : string),
    DirectedEdge.link e = false ->
    DirectedEdge.speed_type e = kTagged ->
    not_configured K tables e density country state ->
    UpdateSpeed K tables e density urban_rc_speed infer country state
    = Ok (DirectedEdge.set_speed e (tagged_rule K e))
    /\ ((DirectedEdge.surface e < kPavedRough K)%nat ->
        UpdateSpeed K tables e density urban_rc_speed infer country state = Ok e)
    /\ ((kPavedRough K <= DirectedEdge.surface e)%nat ->
        (50 <= DirectedEdge.speed e ->
         UpdateSpeed K tables e density urban_rc_speed infer country state
         = Ok (DirectedEdge.set_speed e (DirectedEdge.speed e - 10)))
        /\ (15 < DirectedEdge.speed e < 50 ->
            UpdateSpeed K tables e density urban_rc_speed infer country state
            = Ok (DirectedEdge.set_speed e (DirectedEdge.speed e - 5)))
        /\ (DirectedEdge.speed e <= 15 ->
            UpdateSpeed K tables e density urban_rc_speed infer country state = Ok e)
        /\ (DirectedEdge.speed e = 55 ->
            UpdateSpeed K tables e density urban_rc_speed infer country state
            = Ok (DirectedEdge.set_speed e 45))
        /\ (DirectedEdge.speed e = 40 ->
            UpdateSpeed K tables e density urban_rc_speed infer country state
            = Ok (DirectedEdge.set_speed e 35))
        /\ (DirectedEdge.speed e = 10 ->
            UpdateSpeed K tables e density urban_rc_speed infer country state
            = Ok (DirectedEdge.set_speed e 10))).
Proof.
  intros K tables e density urban_rc_speed infer country state Hlink Htag Hcfg.
  rewrite (UpdateSpeed_heuristic K tables e density urban_rc_speed infer country state Hcfg).
  rewrite (heuristic_tagged K e density urban_rc_speed infer Hlink Htag).
  unfold tagged_rule.
  split; [done |]. split.
  - intros Hs. apply Nat.leb_gt in Hs. rewrite Hs. by rewrite set_speed_same.
  - intros Hs. apply Nat.leb_le in Hs. rewrite Hs.
    repeat split.
    + intros H. apply Z.leb_le in H. by rewrite H.
    + intros [H1 H2]. apply Z.leb_gt in H2. apply Z.ltb_lt in H1. by rewrite H2, H1.
    + intros H.
      assert (H1 : (50 <=? DirectedEdge.speed e) = false) by (apply Z.leb_gt; lia).
      assert (H2 : (15 <? DirectedEdge.speed e) = false) by (apply Z.ltb_ge; lia).
      rewrite H1, H2. by rewrite set_speed_same.
    + by intros ->.
    + by intros ->.
    + by intros ->.
Qed.

Lemma C6_tagged_surface_only_witness :
  UpdateSpeed sample_constants ∅ sample_tagged 20 sample_urban_rc_speed true "us" "pa"
  = Ok (DirectedEdge.set_speed sample_tagged 45).
Proof.
  apply (C6_tagged_surface_only sample_constants ∅ sample_tagged 20 sample_urban_rc_speed
           true "us" "pa");
    try reflexivity; try (left; reflexivity).
Defined.

(** C4. When none of the terminal branches of the heuristic fires (the edge
    is no link, its speed is not tagged, its use is neither rail ferry nor
    ferry), [UpdateSpeed] applies four steps one after the other to the same
    edge: above density 8 the speed becomes the entry of the urban table for
    the class; then a roundabout gets half of that speed, halves rounded
    upward; then a parking aisle, driveway or drive-through gets its fixed
    speed; then a surface of rank rough paved or worse halves the speed by
    integer division. The roundabout step is in single precision and is
    compared with the exact rule up to the speed 255. In particular a
    roundabout of a plain way on a good surface, at a density above 8 and
    with the urban entry 50, ends with the speed 25. *)
Theorem C4_cumulative_steps :
  forall (K : GraphConstants) (tables : registry) (e : DirectedEdge.t) (density : Z)
         (urban_rc_speed : list Z) (infer : bool) (country state : string) (u : Z),
    not_configured K tables e density country state ->
    no_terminal_branch e ->
    (8 < density -> urban_rc_speed !! DirectedEdge.classification e = Some u) ->
    (DirectedEdge.roundabout e = true ->
     0 <= urban_step density u (DirectedEdge.speed e) <= kMaxSpeedByte) ->
    UpdateSpeed K tables e density urban_rc_speed infer country state
    = Ok (DirectedEdge.set_speed e
            (surface_step K e
               (service_step K e
                  (roundabout_step e
                     (urban_step density u (DirectedEdge.speed e))))))
    /\ (8 < density ->
        u = 50 ->
        DirectedEdge.roundabout e = true ->
        DirectedEdge.use e <> kParkingAisle ->
        DirectedEdge.use e <> kDriveway ->
        DirectedEdge.use e <> kDriveThru ->
        (DirectedEdge.surface e < kPavedRough K)%nat ->
        UpdateSpeed K tables e density urban_rc_speed infer country state
        = Ok (DirectedEdge.set_speed e 25)).
Proof.
  intros K tables e density urban_rc_speed infer country state u Hcfg Hterm Hu Hround.
  rewrite (UpdateSpeed_heuristic K tables e density urban_rc_speed infer country state Hcfg).
  rewrite (heuristic_cumulative K e density urban_rc_speed infer u Hterm Hu Hround).
  split; [done |].
  intros Hd -> Hr Hp Hw Ht Hs.
  unfold cumulative_rule, surface_step, service_step, roundabout_step, urban_step.
  apply Z.ltb_lt in Hd. apply Nat.leb_gt in Hs. rewrite Hd, Hr, Hs.
  by destruct (DirectedEdge.use e).
Qed.

Lemma C4_cumulative_steps_witness :
  UpdateSpeed sample_constants ∅ sample_roundabout 20 sample_urban_rc_speed false "us" "pa"
  = Ok (DirectedEdge.set_speed sample_roundabout 25).
Proof.
  apply (C4_cumulative_steps sample_constants ∅ sample_roundabout 20 sample_urban_rc_speed
           false "us" "pa" 50);
    try reflexivity; try discriminate; try (left; reflexivity).
  - repeat split; discriminate.
  - intros _. unfold urban_step, kMaxSpeedByte. simpl. lia.
  - simpl. lia.
Defined.

(** ** What an assignment touches, and what it reads *)

Section FrameFacts.

Variable K : GraphConstants.

Import DirectedEdge.

Lemma bind_err {E A B} (m : result E A) (k : A -> result E B) (x : E) :
  bind m k = Err x -> m = Err x \/ exists a, m = Ok a /\ k a = Err x.
Proof. destruct m as [a|y]; simpl; [eauto | intros [= ->]; by left]. Qed.

Lemma set_speed_frame (e : DirectedEdge.t) (v : Z) : same_but_speed e (set_speed e v).
Proof. by repeat split. Qed.

Ltac unfold_result H :=
  repeat match type of H with
         | bind _ _ = Ok _ => apply bind_ok in H as (? & ? & H)
         | (if ?c then _ else _) = Ok _ => destruct c eqn:?
         | match ?u with _ => _ end = Ok _ => destruct u eqn:?
         end.

Ltac is_set_speed :=
  simplify_eq;
  match goal with
  | |- exists v, _ = set_speed ?e0 v =>
      first [ by eexists | by exists (speed e0); rewrite set_speed_same ]
  end.

(** The only write of [from_table], and so of [FromConfig], is [set_speed]. *)
Lemma from_table_sets_speed (speed_table : SpeedTable.t) (e e' : DirectedEdge.t) (b : bool) :
  from_table speed_table e = Ok (b, e') -> exists v, e' = set_speed e v.
Proof.
  unfold from_table. intros H.
  destruct (use e), (link e), (5 <=? classification e)%nat, (sign e), (roundabout e);
    simpl in H; unfold_result H; is_set_speed.
Qed.

Lemma FromConfig_sets_speed (tables : registry) (e e' : DirectedEdge.t) (density : Z)
    (country state : string) (b : bool) :
  FromConfig K tables e density country state = Ok (b, e') -> exists v, e' = set_speed e v.
Proof.
  unfold FromConfig. intros H.
  destruct (not_from_config K e); [is_set_speed |].
  destruct (find_tables tables country state); [| is_set_speed].
  by apply from_table_sets_speed in H.
Qed.

(** The only write of the heuristic is [set_speed]. *)
Lemma heuristic_sets_speed (e e' : DirectedEdge.t) (density : Z) (urban_rc_speed : list Z)
    (infer : bool) :
  heuristic K e density urban_rc_speed infer = Ok e' -> exists v, e' = set_speed e v.
Proof.
  unfold heuristic. intros H.
  destruct (link e).
  { unfold_result H. is_set_speed. }
  destruct (bool_decide (speed_type e = kTagged)).
  { unfold_result H; is_set_speed. }
  destruct (bool_decide (use e = kRailFerry)); [is_set_speed |].
  destruct (bool_decide (use e = kFerry)).
  { unfold_result H; is_set_speed. }
  apply bind_ok in H as (e1 & H1 & H).
  apply bind_ok in H as (e2 & H2 & H).
  assert (Hs1 : exists v, e1 = set_speed e v).
  { destruct (density >? 8); unfold_result H1; is_set_speed. }
  destruct Hs1 as [v1 ->].
  assert (Hs2 : exists v, e2 = set_speed e v).
  { destruct (roundabout (set_speed e v1)); unfold_result H2; is_set_speed. }
  destruct Hs2 as [v2 ->].
  destruct (use (set_speed e v2)); simpl in H;
    destruct (kPavedRough K <=? surface e)%nat; is_set_speed.
Qed.

Lemma UpdateSpeed_sets_speed (tables : registry) (e e' : DirectedEdge.t) (density : Z)
    (urban_rc_speed : list Z) (infer : bool) (country state : string) :
  UpdateSpeed K tables e density urban_rc_speed infer country state = Ok e' ->
  exists v, e' = set_speed e v.
Proof.
  unfold UpdateSpeed. intros H.
  apply bind_ok in H as ([b e0] & Hcfg & H). simpl in H.
  assert (H0 : exists v, e0 = set_speed e v).
  { destruct (bool_decide (tables = ∅)); [is_set_speed |].
    by apply FromConfig_sets_speed in Hcfg. }
  destruct H0 as [v0 ->].
  destruct b; [is_set_speed |].
  apply heuristic_sets_speed in H as [v ->]. by eexists.
Qed.

End FrameFacts.

(** C9. Whatever [UpdateSpeed] does to an edge, on the override path of
    [FromConfig] as on the heuristic one, the speed is the only attribute it
    changes: classification, use, both access masks, the link, roundabout and
    sign flags, the surface, the provenance of the speed, the length and the
    leaves-tile flag are those of the edge it was given. *)
Theorem C9_only_speed_changes :
  forall (K : GraphConstants) (tables : registry) (e : DirectedEdge.t) (density : Z)
         (urban_rc_speed : list Z) (infer : bool) (country state : string),
    (forall e',
        UpdateSpeed K tables e density urban_rc_speed infer country state = Ok e' ->
        same_but_speed e e'
        /\ exists v, e' = DirectedEdge.set_speed e v)
    /\ (forall b e',
          FromConfig K tables e density country state = Ok (b, e') ->
          same_but_speed e e'
          /\ exists v, e' = DirectedEdge.set_speed e v).
Proof.
  intros. split.
  - intros e' H. apply UpdateSpeed_sets_speed in H as [v ->].
    split; [apply set_speed_frame | by exists v].
  - intros b e' H. apply FromConfig_sets_speed in H as [v ->].
    split; [apply set_speed_frame | by exists v].
Qed.

Lemma C9_only_speed_changes_witness :
  same_but_speed sample_roundabout (DirectedEdge.set_speed sample_roundabout 25)
  /\ exists v, DirectedEdge.set_speed sample_roundabout 25 = DirectedEdge.set_speed sample_roundabout v.
Proof.
  apply (proj1 (C9_only_speed_changes sample_constants ∅ sample_roundabout 20
                  sample_urban_rc_speed false "us" "pa")).
  reflexivity.
Defined.

Section BoundsFacts.

Variable K : GraphConstants.

Import DirectedEdge.

Lemma at_index_then_fault {n : nat} {A : Type} (arr : vec Z n) (i : nat) (k : Z -> A) :
  bind (at_index arr i) (fun v => Ok (k v)) = Err OutOfBounds <-> (n <= i)%nat.
Proof.
  rewrite <- (at_index_fault arr i).
  destruct (at_index arr i) as [v|x]; simpl; split; intros H;
    first [discriminate | congruence].
Qed.

(** The reads of [from_table] past the end of a table: those of the way and
    roundabout arrays at a rank of 8 or more. *)
Lemma from_table_fault (speed_table : SpeedTable.t) (e : DirectedEdge.t) :
  from_table speed_table e = Err OutOfBounds
  <-> is_service (use e) = false /\ link e = false /\ (8 <= classification e)%nat.
Proof.
  unfold from_table.
  assert (Hgen :
    (if link e
     then if (5 <=? classification e)%nat then Ok (false, e)
          else if sign e
               then bind (at_index (SpeedTable.link_exiting speed_table) (classification e))
                      (fun v => Ok (true, set_speed e v))
               else bind (at_index (SpeedTable.link_turning speed_table) (classification e))
                      (fun v => Ok (true, set_speed e v))
     else if roundabout e
          then bind (at_index (SpeedTable.roundabout speed_table) (classification e))
                 (fun v => Ok (true, set_speed e v))
          else bind (at_index (SpeedTable.way speed_table) (classification e))
                 (fun v => Ok (true, set_speed e v))) = Err OutOfBounds
    <-> link e = false /\ (8 <= classification e)%nat).
  { destruct (link e).
    - destruct (5 <=? classification e)%nat eqn:Hrc.
      + split; [discriminate | by intros [? _]].
      + apply Nat.leb_gt in Hrc.
        destruct (sign e); rewrite at_index_then_fault; (split; [lia | by intros [? _]]).
    - destruct (roundabout e); rewrite at_index_then_fault; (split; [done | by intros [_ ?]]). }
  destruct (use e); simpl;
    first [ split; [discriminate | intros [? _]; discriminate]
          | rewrite Hgen; tauto ].
Qed.

Lemma FromConfig_fault (tables : registry) (e : DirectedEdge.t) (density : Z)
    (country state : string) :
  FromConfig K tables e density country state = Err OutOfBounds
  <-> not_from_config K e = false
      /\ is_Some (find_tables tables country state)
      /\ is_service (use e) = false /\ link e = false /\ (8 <= classification e)%nat.
Proof.
  unfold FromConfig.
  destruct (not_from_config K e); [split; [discriminate | by intros [? _]] |].
  destruct (find_tables tables country state) as [found|].
  - rewrite from_table_fault. split; [intros H; by eauto | by intros (_ & _ & ?)].
  - split; [discriminate | intros (_ & [? ?] & _); discriminate].
Qed.

Lemma scaled_fault (factor : spec_float) (s : Z) : scaled factor s <> Err OutOfBounds.
Proof.
  unfold scaled, Float32.to_uint32.
  destruct (Float32.trunc _) as [v|]; [| discriminate].
  by destruct ((0 <=? v) && (v <? 2 ^ 32)).
Qed.

Lemma link_speed_fault (e : DirectedEdge.t) (density : Z) (infer : bool) :
  link_speed K e density infer <> Err OutOfBounds.
Proof.
  unfold link_speed.
  repeat match goal with
         | |- (if ?c then _ else _) <> _ => destruct c
         end; first [apply scaled_fault | discriminate].
Qed.

(** The steps after the urban one read no table. *)
Lemma after_urban_fault (e1 : DirectedEdge.t) :
  bind (if roundabout e1
        then bind (scaled kRoundaboutFactor (speed e1)) (fun v => Ok (set_speed e1 v))
        else Ok e1)
    (fun e2 =>
       let e3 := match use e2 with
                 | kParkingAisle => set_speed e2 (kParkingAisleSpeed K)
                 | kDriveway => set_speed e2 (kDrivewaySpeed K)
                 | kDriveThru => set_speed e2 (kDriveThruSpeed K)
                 | _ => e2
                 end in
       if (kPavedRough K <=? surface e3)%nat
       then Ok (set_speed e3 (speed e3 / 2)) else Ok e3)
  <> Err OutOfBounds.
Proof.
  intros H. apply bind_err in H as [H | (e2 & _ & H)].
  - destruct (roundabout e1); [| discriminate].
    apply bind_err in H as [H | (w & _ & H)]; [by apply scaled_fault in H | discriminate].
  - simpl in H.
    destruct (use e2); simpl in H;
      match type of H with
      | (if ?c then _ else _) = _ => destruct c
      end; discriminate.
Qed.

(** The reads of the heuristic past the end of a table: that of the urban
    table when it has no entry for the rank of the edge. *)
Lemma heuristic_fault (e : DirectedEdge.t) (density : Z) (urban_rc_speed : list Z)
    (infer : bool) :
  heuristic K e density urban_rc_speed infer = Err OutOfBounds
  <-> no_terminal_branch e /\ 8 < density
      /\ (Datatypes.length urban_rc_speed <= classification e)%nat.
Proof.
  unfold heuristic, no_terminal_branch.
  destruct (link e) eqn:Hl.
  { split; [| by intros ((? & _) & _)].
    intros H. apply bind_err in H as [H | (v & _ & H)]; [| discriminate].
    by apply link_speed_fault in H. }
  destruct (decide (speed_type e = kTagged)) as [Ht|Ht].
  { rewrite bool_decide_eq_true_2 by done.
    split; [| by intros ((_ & ? & _) & _)].
    intros H. repeat match type of H with
                     | (if ?c then _ else _) = _ => destruct c
                     end; discriminate. }
  rewrite bool_decide_eq_false_2 by done.
  destruct (decide (use e = kRailFerry)) as [Hr|Hr].
  { rewrite bool_decide_eq_true_2 by done.
    split; [discriminate | by intros ((_ & _ & ? & _) & _)]. }
  rewrite bool_decide_eq_false_2 by done.
  destruct (decide (use e = kFerry)) as [Hf|Hf].
  { rewrite bool_decide_eq_true_2 by done.
    split; [| by intros ((_ & _ & _ & ?) & _)].
    intros H. repeat match type of H with
                     | (if ?c then _ else _) = _ => destruct c
                     end; discriminate. }
  rewrite bool_decide_eq_false_2 by done.
  rewrite Z.gtb_ltb.
  destruct (8 <? density) eqn:Hd.
  - apply Z.ltb_lt in Hd. rewrite <- at_pointer_fault.
    destruct (at_pointer urban_rc_speed (classification e)) as [v|x] eqn:Hat.
    + split; [| intros (_ & _ & ?); discriminate].
      intros H. by apply after_urban_fault in H.
    + split; [intros [= ->]; by repeat split | by intros (_ & _ & ->)].
  - apply Z.ltb_ge in Hd.
    split; [| intros (_ & ? & _); lia].
    intros H. by apply after_urban_fault in H.
Qed.

Lemma UpdateSpeed_fault (tables : registry) (e : DirectedEdge.t) (density : Z)
    (urban_rc_speed : list Z) (infer : bool) (country state : string) :
  UpdateSpeed K tables e density urban_rc_speed infer country state = Err OutOfBounds ->
  (8 <= classification e)%nat
  \/ (Datatypes.length urban_rc_speed <= classification e)%nat.
Proof.
  unfold UpdateSpeed. intros H.
  apply bind_err in H as [H | ([b e0] & Hcfg & H)].
  - destruct (bool_decide (tables = ∅)); [discriminate |].
    apply FromConfig_fault in H. left. tauto.
  - simpl in H. destruct b; [discriminate |].
    assert (e0 = e) as ->.
    { destruct (bool_decide (tables = ∅)); [congruence |].
      by apply (FromConfig_false K) in Hcfg. }
    apply heuristic_fault in H. right. tauto.
Qed.

End BoundsFacts.

(** C10. Under the preconditions of the interface every table read of an
    assignment is in bounds: with a rank of at most 7 and an urban table of
    at least 8 entries [UpdateSpeed] reads nothing past the end of a table.
    [FromConfig] reads the way and roundabout arrays of 8 entries at the rank
    of the edge without a check, which is in bounds exactly when the rank is
    at most 7; only the link arrays of 5 entries are guarded, by the test of
    the rank against 5. The urban step of the heuristic reads the table of the
    caller at the rank without a check: the read is in bounds exactly when
    the table has an entry for that rank, so for all eight ranks only when
    it has at least 8 entries, which nothing verifies. *)
Theorem C10_table_reads_in_bounds :
  forall (K : GraphConstants) (tables : registry) (e : DirectedEdge.t) (density : Z)
         (urban_rc_speed : list Z) (infer : bool) (country state : string),
    ((DirectedEdge.classification e <= 7)%nat ->
     (8 <= Datatypes.length urban_rc_speed)%nat ->
     UpdateSpeed K tables e density urban_rc_speed infer country state <> Err OutOfBounds)
    /\ (forall found : table_pair,
          not_from_config K e = false ->
          find_tables tables country state = Some found ->
          is_service (DirectedEdge.use e) = false ->
          DirectedEdge.link e = false ->
          (FromConfig K tables e density country state = Err OutOfBounds
           <-> (8 <= DirectedEdge.classification e)%nat))
    /\ (DirectedEdge.link e = true ->
        FromConfig K tables e density country state <> Err OutOfBounds)
    /\ (no_terminal_branch e ->
        8 < density ->
        (heuristic K e density urban_rc_speed infer = Err OutOfBounds
         <-> (Datatypes.length urban_rc_speed <= DirectedEdge.classification e)%nat))
    /\ (8 < density ->
        ((forall e0 : DirectedEdge.t,
             no_terminal_branch e0 ->
             (DirectedEdge.classification e0 <= 7)%nat ->
             heuristic K e0 density urban_rc_speed infer <> Err OutOfBounds)
         <-> (8 <= Datatypes.length urban_rc_speed)%nat)).
Proof.
  intros K tables e density urban_rc_speed infer country state.
  split; [| split; [| split; [| split]]].
  - intros Hrc Hlen H. apply UpdateSpeed_fault in H. lia.
  - intros found Hexcl Hfound Hs Hl. rewrite FromConfig_fault.
    rewrite Hfound. split; [tauto | intros ?; by eauto 10].
  - intros Hl H. apply FromConfig_fault in H. destruct H as (_ & _ & _ & H & _). congruence.
  - intros Hterm Hd. rewrite heuristic_fault. tauto.
  - intros Hd. split.
    + intros Hsafe.
      destruct (decide (8 <= Datatypes.length urban_rc_speed)%nat) as [|Hshort]; [done |].
      exfalso. apply (Hsafe (way_of_class 7)).
      * by repeat split.
      * simpl. lia.
      * apply heuristic_fault. split; [by repeat split |]. split; [done |]. simpl. lia.
    + intros Hlen e0 Hterm Hrc H. apply heuristic_fault in H. lia.
Qed.

(** The interface verifies nothing: an urban table with no entry faults. *)
Lemma C10_table_reads_in_bounds_witness :
  heuristic sample_constants (way_of_class 7) 9 [] false = Err OutOfBounds
  /\ UpdateSpeed sample_constants sample_registry (way_of_class 7) 9 sample_urban_rc_speed
       false "us" "pa" <> Err OutOfBounds.
Proof.
  split.
  - apply (proj1 (proj2 (proj2 (proj2 (C10_table_reads_in_bounds sample_constants ∅
                                           (way_of_class 7) 9 [] false "us" "pa"))))).
    + repeat split; discriminate.
    + reflexivity.
    + simpl. lia.
  - apply (proj1 (C10_table_reads_in_bounds sample_constants sample_registry
                    (way_of_class 7) 9 sample_urban_rc_speed false "us" "pa")).
    + simpl. lia.
    + simpl. lia.
Defined.

(** ** Reading the configuration *)

Lemma IsUint_uint32 (z : Z) : rapidjson.IsUint z = true <-> uint32 z.
Proof.
  unfold rapidjson.IsUint, uint32.
  rewrite andb_true_iff, Z.leb_le, Z.ltb_lt. done.
Qed.

Lemma GetUint_ok (v : json) (z : Z) :
  rapidjson.GetUint v = Ok z <-> v = JInt z /\ uint32 z.
Proof.
  rewrite <- IsUint_uint32. unfold rapidjson.GetUint.
  destruct v as [| | z' | | | |]; try (split; [discriminate | intros [? _]; discriminate]).
  destruct (rapidjson.IsUint z') eqn:Hz; split.
  - intros [= ->]. done.
  - intros [[= ->] _]. done.
  - discriminate.
  - intros [[= ->] Hz']. congruence.
Qed.

Lemma member_ok (obj : json) (name : string) (x : json) :
  rapidjson.member obj name = Ok x
  <-> exists members, obj = JObject members /\ rapidjson.FindMember members name = Some x.
Proof.
  unfold rapidjson.member.
  destruct obj as [| | | | | |members];
    try (split; [discriminate | intros (? & ? & _); discriminate]).
  destruct (rapidjson.FindMember members name) as [y|] eqn:Hfind; split.
  - intros [= ->]. eauto.
  - intros (? & [= <-] & H). congruence.
  - discriminate.
  - intros (? & [= <-] & H). congruence.
Qed.

(** The loop over the speeds succeeds exactly on unsigned numbers. *)
Lemma GetUints_ok (arr : list json) (speeds : list Z) :
  GetUints arr = Ok speeds <-> arr = JInt <$> speeds /\ Forall uint32 speeds.
Proof.
  revert speeds. induction arr as [|a arr IH]; intros speeds; simpl.
  - split.
    + intros [= <-]. by split.
    + intros [H _]. by destruct speeds.
  - split.
    + intros H. apply bind_ok in H as (v & Hv & H).
      apply bind_ok in H as (vs & Hvs & [= <-]).
      apply GetUint_ok in Hv as [-> Hv]. apply IH in Hvs as [-> Hvs].
      split; [done | by constructor].
    + intros [H Hall]. destruct speeds as [|v vs]; [discriminate |].
      injection H as -> ->. inversion Hall as [|? ? Hv Hvs]; subst.
      rewrite (proj2 (GetUint_ok (JInt v) v)) by done. simpl.
      rewrite (proj2 (IH vs)) by done. done.
Qed.

(** Once the length is checked, the array holds exactly the speeds read. *)
Lemma fill_to_list {n : nat} (entries : vec Z n) (speeds : list Z) :
  Datatypes.length speeds = n -> vec_to_list (fill entries speeds) = speeds.
Proof.
  revert speeds. induction entries as [|x n entries IH]; intros speeds Hlen.
  - by destruct speeds.
  - destruct speeds as [|s speeds]; [discriminate |].
    simpl. f_equal. apply IH. simpl in Hlen. lia.
Qed.

Lemma fill_from_vec {n : nat} (entries v : vec Z n) : fill entries (vec_to_list v) = v.
Proof. apply vec_to_list_inj2, fill_to_list, length_vec_to_list. Qed.

Lemma parse_ok (obj : json) (name : string) (n : nat) (v : vec Z n) :
  parse obj name n = Ok v
  <-> exists members,
        obj = JObject members
        /\ rapidjson.FindMember members name = Some (speeds_json v)
        /\ Forall uint32 (vec_to_list v).
Proof.
  unfold parse, speeds_json. split.
  - intros H. apply bind_ok in H as (field & Hfield & H).
    apply bind_ok in H as (arr & Harr & H).
    apply member_ok in Hfield as (members & -> & Hfind).
    destruct field; try discriminate. injection Harr as ->.
    case_bool_decide as Hlen; [discriminate |].
    apply bind_ok in H as (speeds & Hspeeds & [= <-]).
    apply GetUints_ok in Hspeeds as [-> Hall].
    rewrite length_fmap in Hlen.
    exists members. rewrite fill_to_list by done. done.
  - intros (members & -> & Hfind & Hall).
    rewrite (proj2 (member_ok (JObject members) name _)) by eauto.
    simpl. rewrite length_fmap, length_vec_to_list.
    rewrite bool_decide_eq_false_2 by (intros H; by apply H).
    rewrite (proj2 (GetUints_ok _ (vec_to_list v))) by done.
    simpl. by rewrite fill_from_vec.
Qed.

(** A wrong length fails with the name of the field and its length. *)
Lemma parse_wrong_length (members : list (string * json)) (name : string) (n : nat)
    (arr : list json) :
  rapidjson.FindMember members name = Some (JArray arr) ->
  Datatypes.length arr <> n ->
  parse (JObject members) name n
  = Err (StdException (name +:+ " must have " +:+ pretty n +:+ " speeds")).
Proof.
  intros Hfind Hlen. unfold parse.
  rewrite (proj2 (member_ok (JObject members) name _)) by eauto.
  simpl. by rewrite bool_decide_eq_true_2.
Qed.

Lemma GetUintMember_ok (obj : json) (name : string) (z : Z) :
  GetUintMember obj name = Ok z
  <-> exists members,
        obj = JObject members
        /\ rapidjson.FindMember members name = Some (JInt z)
        /\ uint32 z.
Proof.
  unfold GetUintMember. split.
  - intros H. apply bind_ok in H as (field & Hfield & H).
    apply member_ok in Hfield as (members & -> & Hfind).
    apply GetUint_ok in H as [-> Hz]. eauto.
  - intros (members & -> & Hfind & Hz).
    rewrite (proj2 (member_ok (JObject members) name _)) by eauto.
    by apply (GetUint_ok (JInt z) z).
Qed.

Lemma vec4_eta (v : vec Z 4) : v = [# v !!! 0%fin; v !!! 1%fin; v !!! 2%fin; v !!! 3%fin].
Proof.
  apply vec_eq. intros i.
  repeat (inv_fin i; [done | intros i]). inv_fin i.
Qed.

(** The constructor of a table succeeds exactly on objects of the shape of a
    table, and returns the values the object holds. *)
Lemma SpeedTable_ctor_ok (obj : json) (t : SpeedTable.t) :
  SpeedTable_ctor obj = Ok t <-> table_shape obj t.
Proof.
  unfold SpeedTable_ctor, table_shape. split.
  - intros H.
    apply bind_ok in H as (way & Hway & H).
    apply bind_ok in H as (link_exiting & Hexit & H).
    apply bind_ok in H as (link_turning & Hturn & H).
    apply bind_ok in H as (roundabout & Hround & H).
    apply bind_ok in H as (driveway & Hd & H).
    apply bind_ok in H as (alley & Ha & H).
    apply bind_ok in H as (parking_aisle & Hp & H).
    apply bind_ok in H as (drive_through & Ht & [= <-]).
    apply parse_ok in Hway as (members & -> & Hway & Hway').
    apply parse_ok in Hexit as (? & [= <-] & Hexit & Hexit').
    apply parse_ok in Hturn as (? & [= <-] & Hturn & Hturn').
    apply parse_ok in Hround as (? & [= <-] & Hround & Hround').
    apply GetUintMember_ok in Hd as (? & [= <-] & Hd & Hd').
    apply GetUintMember_ok in Ha as (? & [= <-] & Ha & Ha').
    apply GetUintMember_ok in Hp as (? & [= <-] & Hp & Hp').
    apply GetUintMember_ok in Ht as (? & [= <-] & Ht & Ht').
    exists members. simpl. repeat split; try done.
    do 4 (constructor; [done |]). constructor.
  - intros (members & -> & Hway & Hexit & Hturn & Hround & Hd & Ha & Hp & Ht
            & Hway' & Hexit' & Hturn' & Hround' & Hservice).
    destruct t as [way link_exiting link_turning roundabout service]. simpl in *.
    rewrite (vec4_eta service) in Hservice. simpl in Hservice.
    inversion Hservice as [|? ? Hd' Hs1]; subst.
    inversion Hs1 as [|? ? Ha' Hs2]; subst.
    inversion Hs2 as [|? ? Hp' Hs3]; subst.
    inversion Hs3 as [|? ? Ht' _]; subst.
    rewrite (proj2 (parse_ok (JObject members) "way" 8 way)) by eauto. simpl.
    rewrite (proj2 (parse_ok (JObject members) "link_exiting" 5 link_exiting)) by eauto. simpl.
    rewrite (proj2 (parse_ok (JObject members) "link_turning" 5 link_turning)) by eauto. simpl.
    rewrite (proj2 (parse_ok (JObject members) "roundabout" 8 roundabout)) by eauto. simpl.
    rewrite (proj2 (GetUintMember_ok (JObject members) "driveway" _)) by eauto. simpl.
    rewrite (proj2 (GetUintMember_ok (JObject members) "alley" _)) by eauto. simpl.
    rewrite (proj2 (GetUintMember_ok (JObject members) "parking_aisle" _)) by eauto. simpl.
    rewrite (proj2 (GetUintMember_ok (JObject members) "drive-through" _)) by eauto. simpl.
    by rewrite <- vec4_eta.
Qed.

(** ** Building the table of overrides *)

Lemma ctor_state_eta (st : ctor_state) : {| tables := tables st; log := log st |} = st.
Proof. by destruct st. Qed.

(** [emplace] keeps what is there: the union that prefers the left side. *)
Lemma emplace_union (code : string) (value : table_pair) (st : ctor_state) :
  emplace code value st
  = ({| tables := tables st ∪ {[ code := value ]}; log := log st |}, Ok tt).
Proof.
  unfold emplace. destruct (tables st !! code) as [old|] eqn:Hl.
  - f_equal. rewrite <- (ctor_state_eta st) at 1. f_equal.
    apply map_eq. intros k. rewrite lookup_union.
    destruct (decide (code = k)) as [<-|Hne].
    + rewrite Hl, lookup_singleton_eq. done.
    + rewrite lookup_singleton_ne by done. by destruct (tables st !! k).
  - by rewrite insert_union_singleton_r.
Qed.

Lemma load_pair_ok (cs : json) (st st' : ctor_state) :
  load_pair cs st = (st', Ok tt) -> exists r, record_shape cs r.
Proof.
  unfold load_pair, ctor_bind, lift. intros H.
  destruct (bind (rapidjson.member cs "iso3166-1") _) as [country|] eqn:Hc; [| discriminate].
  destruct (bind (rapidjson.member cs "iso3166-2") _) as [state|] eqn:Hs; [| discriminate].
  destruct (bind (rapidjson.member cs "urban") _) as [u|] eqn:Hu; [| discriminate].
  destruct (bind (rapidjson.member cs "rural") _) as [r|] eqn:Hr; [| discriminate].
  apply bind_ok in Hc as (vc & Hc & Hc').
  apply bind_ok in Hs as (vs & Hs & Hs').
  apply bind_ok in Hu as (u_obj & Hu & Hu').
  apply bind_ok in Hr as (r_obj & Hr & Hr').
  apply member_ok in Hc as (members & -> & Hc).
  apply member_ok in Hs as (? & [= <-] & Hs).
  apply member_ok in Hu as (? & [= <-] & Hu).
  apply member_ok in Hr as (? & [= <-] & Hr).
  destruct vc; try discriminate. injection Hc' as ->.
  destruct vs; try discriminate. injection Hs' as ->.
  apply SpeedTable_ctor_ok in Hu', Hr'.
  exists {| iso3166_1 := country; iso3166_2 := state; urban_spec := u; rural_spec := r |}.
  exists members, u_obj, r_obj. done.
Qed.

Lemma load_pair_shape (cs : json) (r : ConfigRecord) (st : ctor_state) :
  record_shape cs r ->
  load_pair cs st = emplace (record_key r) (urban_spec r, rural_spec r) st.
Proof.
  intros (members & u_obj & r_obj & -> & Hc & Hs & Hu & Hr & Hu' & Hr').
  apply SpeedTable_ctor_ok in Hu', Hr'.
  unfold load_pair, ctor_bind, lift, record_key, rapidjson.member.
  rewrite Hc. simpl. rewrite Hs. simpl. rewrite Hu. simpl. rewrite Hu'.
  rewrite Hr. simpl. by rewrite Hr'.
Qed.

(** The loop never writes the log, whether it throws or not. *)
Lemma load_pair_log (cs : json) (st st' : ctor_state) (r : result exn unit) :
  load_pair cs st = (st', r) -> log st' = log st.
Proof.
  unfold load_pair, ctor_bind, lift. intros H.
  repeat match type of H with
         | match ?m with Ok _ => _ | Err _ => _ end = _ => destruct m
         end; try (injection H as <- _; done).
  rewrite emplace_union in H. by injection H as <- _.
Qed.

Lemma load_pairs_log (items : list json) (st st' : ctor_state) (r : result exn unit) :
  load_pairs items st = (st', r) -> log st' = log st.
Proof.
  revert st. induction items as [|cs items IH]; intros st; simpl.
  - unfold ctor_ret. by intros [= <- _].
  - unfold ctor_bind. destruct (load_pair cs st) as [st1 [[]|x]] eqn:H1.
    + intros H. apply IH in H. rewrite H. by apply load_pair_log in H1.
    + intros [= <- _]. by apply load_pair_log in H1.
Qed.

(** The loop succeeds exactly on sequences of records... *)
Lemma load_pairs_ok (items : list json) (st st' : ctor_state) :
  load_pairs items st = (st', Ok tt) -> exists records, Forall2 record_shape items records.
Proof.
  revert st. induction items as [|cs items IH]; intros st; simpl.
  - intros _. exists []. constructor.
  - unfold ctor_bind. destruct (load_pair cs st) as [st1 [[]|x]] eqn:H1; [| discriminate].
    intros H. apply IH in H as [records Hrecords].
    apply load_pair_ok in H1 as [r Hr].
    exists (r :: records). by constructor.
Qed.

(** ...and then adds, for every key not yet in the table, the tables of the
    first record of that key. *)
Lemma load_pairs_shape (items : list json) (records : list ConfigRecord) (st : ctor_state) :
  Forall2 record_shape items records ->
  load_pairs items st
  = ({| tables := tables st ∪ list_to_map (record_entry <$> records); log := log st |}, Ok tt).
Proof.
  intros Hall. revert st.
  induction Hall as [|cs r items records Hr Hall IH]; intros st; simpl.
  - unfold ctor_ret. by rewrite (right_id_L ∅ (∪)), ctor_state_eta.
  - unfold ctor_bind.
    rewrite (load_pair_shape cs r st Hr), emplace_union, IH. simpl.
    do 2 f_equal. unfold record_entry at 2.
    by rewrite insert_union_singleton_l, (assoc_L (∪)).
Qed.

Section ConstructionFacts.

Variable read_json : string -> result exn rapidjson.Document.

(** The constructor returns, whatever the file holds. *)
Lemma new_SpeedAssigner_returns (config_file : option string) :
  exists st, new_SpeedAssigner read_json config_file = (st, Ok tt).
Proof.
  unfold new_SpeedAssigner, SpeedAssigner_ctor.
  destruct config_file as [file|]; [| by eexists].
  unfold ctor_bind, try_catch, lift, throw.
  destruct (read_json file) as [doc|x]; simpl.
  - destruct (rapidjson.HasParseError doc); simpl; [by eexists |].
    destruct (rapidjson.IsArray (rapidjson.root doc)); simpl; [| by eexists].
    destruct (rapidjson.GetArray (rapidjson.root doc)) as [items|y]; simpl.
    + destruct (load_pairs items _) as [st1 [[]|y]]; simpl; [by eexists |].
      destruct y; simpl; by eexists.
    + destruct y; simpl; by eexists.
  - destruct x; simpl; by eexists.
Qed.

(** A malformed document ends in the handlers: one warning, and the table
    cleared. *)
Lemma new_SpeedAssigner_malformed (file : string) :
  malformed (read_json file) ->
  exists message,
    new_SpeedAssigner read_json (Some file)
    = ({| tables := ∅;
          log := [(WARN, message);
                  (INFO, "Enabled default speeds assignment from config: " +:+ file)] |},
       Ok tt).
Proof.
  unfold malformed, new_SpeedAssigner, SpeedAssigner_ctor.
  unfold ctor_bind, try_catch, lift, throw.
  destruct (read_json file) as [doc|x]; simpl.
  - destruct (rapidjson.HasParseError doc) eqn:Hp; simpl; [by eexists |].
    intros [Hparse | Hshape]; [discriminate |].
    destruct (rapidjson.root doc) as [| | | | |items|] eqn:Hroot; simpl; try by eexists.
    destruct (load_pairs items _) as [st1 [[]|y]] eqn:Hload; simpl.
    + destruct Hshape. apply load_pairs_ok in Hload as [records Hrecords].
      exists records, items. done.
    + apply load_pairs_log in Hload. simpl in Hload.
      destruct y; simpl; rewrite Hload; by eexists.
  - intros _. destruct x; simpl; by eexists.
Qed.

(** The table built from a well-formed document. *)
Lemma new_SpeedAssigner_well_formed (file : string) (doc : json) (records : list ConfigRecord) :
  read_json file = Ok {| rapidjson.HasParseError := false; rapidjson.root := doc |} ->
  well_formed doc records ->
  tables (new_SpeedAssigner read_json (Some file)).1 = list_to_map (record_entry <$> records).
Proof.
  intros Hread (items & -> & Hall).
  unfold new_SpeedAssigner, SpeedAssigner_ctor.
  unfold ctor_bind, try_catch, lift, throw.
  rewrite Hread. simpl.
  rewrite (load_pairs_shape items records _ Hall). simpl.
  by rewrite (left_id_L ∅ (∪)).
Qed.

End ConstructionFacts.

(** C7. Whatever the configuration file holds, the constructor returns
    without an exception. When the document is malformed (the file cannot be
    read, its syntax cannot be parsed, a field is missing, an array has the
    wrong length or a value the wrong type) the table of overrides ends empty
    and one warning is logged. An array of the wrong length fails inside with
    a message naming the field and the length it must have, as in way must
    have 8 speeds. Without a configuration path the table is empty too and
    only an information line is logged. *)
Theorem C7_malformed_gives_empty_registry :
  forall read_json : string -> result exn rapidjson.Document,
    (forall config_file : option string,
        exists st, new_SpeedAssigner read_json config_file = (st, Ok tt))
    /\ (forall file : string,
          malformed (read_json file) ->
          exists message,
            new_SpeedAssigner read_json (Some file)
            = ({| tables := ∅;
                  log := [(WARN, message);
                          (INFO, "Enabled default speeds assignment from config: " +:+ file)] |},
               Ok tt))
    /\ new_SpeedAssigner read_json None
       = ({| tables := ∅;
             log := [(INFO, "Disabled default speeds assignment from config")] |}, Ok tt)
    /\ (forall (members : list (string * json)) (name : string) (n : nat) (arr : list json),
          rapidjson.FindMember members name = Some (JArray arr) ->
          Datatypes.length arr <> n ->
          parse (JObject members) name n
          = Err (StdException (name +:+ " must have " +:+ pretty n +:+ " speeds")))
    /\ new_SpeedAssigner (read_as short_way_doc) (Some "speeds.json")
       = ({| tables := ∅;
             log := [(WARN, "Disabled default speeds assignment from config: way must have 8 speeds");
                     (INFO, "Enabled default speeds assignment from config: speeds.json")] |},
          Ok tt)
    /\ tables (new_SpeedAssigner (read_as no_state_doc) (Some "speeds.json")).1 = ∅.
Proof.
  intros read_json. repeat split.
  - apply new_SpeedAssigner_returns.
  - apply new_SpeedAssigner_malformed.
  - intros members name n arr. apply parse_wrong_length.
Qed.

(** A file that cannot be opened. *)
Lemma C7_malformed_gives_empty_registry_witness :
  exists message,
    new_SpeedAssigner (fun _ => Err (StdException "Cannot open file")) (Some "speeds.json")
    = ({| tables := ∅;
          log := [(WARN, message);
                  (INFO, "Enabled default speeds assignment from config: " +:+ "speeds.json")] |},
       Ok tt).
Proof.
  apply (proj1 (proj2 (C7_malformed_gives_empty_registry
                         (fun _ => Err (StdException "Cannot open file"))))).
  exact I.
Defined.

(** ** The round trip of a well-formed document *)

Lemma record_keys (records : list ConfigRecord) :
  (record_entry <$> records).*1 = record_key <$> records.
Proof. by rewrite <- list_fmap_compose. Qed.

(** The json of a table of unsigned numbers has the shape of that table. *)
Lemma table_json_shape (t : SpeedTable.t) :
  Forall uint32 (vec_to_list (SpeedTable.way t)) ->
  Forall uint32 (vec_to_list (SpeedTable.link_exiting t)) ->
  Forall uint32 (vec_to_list (SpeedTable.link_turning t)) ->
  Forall uint32 (vec_to_list (SpeedTable.roundabout t)) ->
  Forall uint32 (vec_to_list (SpeedTable.service t)) ->
  table_shape (table_json t) t.
Proof. intros. eexists. by repeat split. Qed.

Lemma sample_tables_uint32 :
  table_shape (table_json sample_urban) sample_urban
  /\ table_shape (table_json sample_rural) sample_rural.
Proof.
  split; apply table_json_shape; simpl;
    repeat (constructor; [unfold uint32; lia |]); constructor.
Qed.

Lemma sample_record_shape :
  record_shape (record_json sample_record) sample_record
  /\ record_shape (record_json sample_repeat) sample_repeat.
Proof.
  destruct sample_tables_uint32 as [Hu Hr].
  split; eexists _, _, _; by repeat split.
Qed.

(** The claim as the design document states it fails on a document that
    names a country and state twice: the table has one entry for the two
    records, and the second record is not the one returned. *)
Lemma C8_registry_round_trip_counterexample :
  well_formed repeat_doc [sample_record; sample_repeat]
  /\ size (tables (new_SpeedAssigner (read_as repeat_doc) (Some "speeds.json")).1)
     <> Datatypes.length [sample_record; sample_repeat]
  /\ ~ (forall r : ConfigRecord,
          r ∈ [sample_record; sample_repeat] ->
          tables (new_SpeedAssigner (read_as repeat_doc) (Some "speeds.json")).1 !! record_key r
          = Some (urban_spec r, rural_spec r)).
Proof.
  assert (Hwf : well_formed repeat_doc [sample_record; sample_repeat]).
  { destruct sample_record_shape as [H1 H2].
    exists [record_json sample_record; record_json sample_repeat].
    split; [done |]. by repeat constructor. }
  split; [done |].
  rewrite (new_SpeedAssigner_well_formed (read_as repeat_doc) "speeds.json" repeat_doc
             [sample_record; sample_repeat] eq_refl Hwf).
  split.
  - intros Hsize. vm_compute in Hsize. discriminate Hsize.
  - intros Hall. specialize (Hall sample_repeat).
    assert (Hin : sample_repeat ∈ [sample_record; sample_repeat]) by set_solver.
    specialize (Hall Hin). vm_compute in Hall. discriminate Hall.
Qed.

(** C8, amended. For every well-formed configuration document the table
    built holds, under each key country.state, the urban and rural tables of
    the first record of that key, value for value as the document gives them
    (way, link_exiting, link_turning, roundabout and the four service
    speeds). When the keys of the records are pairwise distinct, the table
    has exactly one entry per record and every record is returned unchanged
    by the lookup of its key. *)
Theorem C8_registry_round_trip :
  forall (read_json : string -> result exn rapidjson.Document) (file : string) (doc : json)
         (records : list ConfigRecord),
    read_json file = Ok {| rapidjson.HasParseError := false; rapidjson.root := doc |} ->
    well_formed doc records ->
    tables (new_SpeedAssigner read_json (Some file)).1 = list_to_map (record_entry <$> records)
    /\ (forall (before after : list ConfigRecord) (r : ConfigRecord),
          records = before ++ r :: after ->
          record_key r ∉ record_key <$> before ->
          tables (new_SpeedAssigner read_json (Some file)).1 !! record_key r
          = Some (urban_spec r, rural_spec r))
    /\ (NoDup (record_key <$> records) ->
        size (tables (new_SpeedAssigner read_json (Some file)).1) = Datatypes.length records
        /\ forall r : ConfigRecord,
            r ∈ records ->
            tables (new_SpeedAssigner read_json (Some file)).1 !! record_key r
            = Some (urban_spec r, rural_spec r)).
Proof.
  intros read_json file doc records Hread Hwf.
  rewrite (new_SpeedAssigner_well_formed read_json file doc records Hread Hwf).
  split; [done |]. split.
  - intros before after r -> Hfresh.
    rewrite fmap_app, list_to_map_app, lookup_union_r.
    + rewrite fmap_cons. unfold record_entry at 1.
      by rewrite list_to_map_cons, lookup_insert_eq.
    + apply not_elem_of_list_to_map_1. by rewrite record_keys.
  - intros Hdistinct. split.
    + rewrite map_size_list_to_map by (by rewrite record_keys).
      by rewrite length_fmap.
    + intros r Hr. apply elem_of_list_to_map_1.
      * by rewrite record_keys.
      * by apply (list_elem_of_fmap_2 record_entry).
Qed.

Lemma C8_registry_round_trip_witness :
  size (tables (new_SpeedAssigner (read_as sample_doc) (Some "speeds.json")).1) = 1%nat
  /\ forall r : ConfigRecord,
      r ∈ [sample_record] ->
      tables (new_SpeedAssigner (read_as sample_doc) (Some "speeds.json")).1 !! record_key r
      = Some (urban_spec r, rural_spec r).
Proof.
  apply (C8_registry_round_trip (read_as sample_doc) "speeds.json" sample_doc [sample_record]).
  - reflexivity.
  - exists [record_json sample_record]. split; [reflexivity |].
    constructor; [| constructor].
    exists [("iso3166-1", JString "us"); ("iso3166-2", JString "pa");
            ("urban", table_json sample_urban); ("rural", table_json sample_rural)],
           (table_json sample_urban), (table_json sample_rural).
    repeat split; try reflexivity.
    + eexists. repeat split; try reflexivity;
        simpl; repeat (constructor; [unfold uint32; lia |]); constructor.
    + eexists. repeat split; try reflexivity;
        simpl; repeat (constructor; [unfold uint32; lia |]); constructor.
  - simpl. apply NoDup_singleton.
Defined.

(** * Further properties of the code *)

(** ** The contract of [FromConfig] *)

Section ConfigContract.

Variable K : GraphConstants.

Import DirectedEdge.

Lemma at_index_entry {n : nat} (arr : vec Z n) (i : nat) (v : Z) :
  at_index arr i = Ok v -> v ∈ vec_to_list arr.
Proof.
  unfold at_index. destruct (vec_to_list arr !! i) as [w|] eqn:Hl; [| discriminate].
  intros [= <-]. by apply list_elem_of_lookup_2 in Hl.
Qed.

Lemma service_entry (t : SpeedTable.t) (i : fin 4) :
  SpeedTable.service t !!! i ∈ table_entries t.
Proof.
  unfold table_entries. rewrite !elem_of_app. do 4 right.
  apply elem_of_vlookup. by exists i.
Qed.

(** A speed assigned by [from_table] is one of the entries of the table. *)
Lemma from_table_entry (speed_table : SpeedTable.t) (e e' : DirectedEdge.t) :
  from_table speed_table e = Ok (true, e') -> speed e' ∈ table_entries speed_table.
Proof.
  unfold from_table. intros H.
  destruct (use e); try (injection H as <-; apply service_entry).
  all: destruct (link e);
    [ destruct (5 <=? classification e)%nat; [discriminate |]; destruct (sign e)
    | destruct (roundabout e) ].
  all: apply bind_ok in H as (v & Hv & [= <-]).
  all: apply at_index_entry in Hv; unfold table_entries; rewrite !elem_of_app.
  all: change (speed (set_speed e v)) with v; tauto.
Qed.

(** [from_table] reads neither the speed nor what it wrote. *)
Lemma from_table_set_speed (speed_table : SpeedTable.t) (e : DirectedEdge.t) (w : Z) :
  from_table speed_table (set_speed e w)
  = match from_table speed_table e with
    | Ok (true, e') => Ok (true, e')
    | Ok (false, _) => Ok (false, set_speed e w)
    | Err f => Err f
    end.
Proof.
  unfold from_table.
  change (use (set_speed e w)) with (use e).
  change (link (set_speed e w)) with (link e).
  change (sign (set_speed e w)) with (sign e).
  change (roundabout (set_speed e w)) with (roundabout e).
  change (classification (set_speed e w)) with (classification e).
  destruct (use e); try done.
  all: destruct (link e);
    [ destruct (5 <=? classification e)%nat; [done |]; destruct (sign e)
    | destruct (roundabout e) ].
  all: match goal with |- context [at_index ?a ?i] => destruct (at_index a i) end.
  all: done.
Qed.

Lemma FromConfig_set_speed (tables : registry) (e : DirectedEdge.t) (w : Z) (density : Z)
    (country state : string) :
  FromConfig K tables (set_speed e w) density country state
  = match FromConfig K tables e density country state with
    | Ok (true, e') => Ok (true, e')
    | Ok (false, _) => Ok (false, set_speed e w)
    | Err f => Err f
    end.
Proof.
  unfold FromConfig.
  change (not_from_config K (set_speed e w)) with (not_from_config K e).
  destruct (not_from_config K e); [done |].
  destruct (find_tables tables country state); [| done].
  apply from_table_set_speed.
Qed.

(** The edges no table resolves. *)
Lemma FromConfig_never (tables : registry) (e : DirectedEdge.t) (density : Z)
    (country state : string) :
  never_from_config K e -> FromConfig K tables e density country state = Ok (false, e).
Proof.
  unfold FromConfig. intros [-> | (Hs & Hl & Hrc)]; [done |].
  destruct (not_from_config K e); [done |].
  destruct (find_tables tables country state); [| done].
  unfold from_table. rewrite Hl. apply Nat.leb_le in Hrc. rewrite Hrc.
  by destruct (use e).
Qed.

End ConfigContract.

(** X1. The contract of [FromConfig], as its comment has it. When it returns
    false the edge is exactly as it was. When it returns true, an entry of
    the table for the exact key, the country or the global default was found,
    and the speed of the edge is one of the speeds of the table of that entry
    selected by the density; nothing but the speed differs. *)
Theorem X1_FromConfig_contract :
  forall (K : GraphConstants) (tables : registry) (e e' : DirectedEdge.t) (density : Z)
         (country state : string) (resolved : bool),
    FromConfig K tables e density country state = Ok (resolved, e') ->
    (resolved = false -> e' = e)
    /\ (resolved = true ->
        not_from_config K e = false
        /\ exists found,
            find_tables tables country state = Some found
            /\ DirectedEdge.speed e'
               ∈ table_entries (if density <=? 8 then rural found else urban found)
            /\ e' = DirectedEdge.set_speed e (DirectedEdge.speed e')).
Proof.
  intros K tables e e' density country state resolved H. split.
  - intros ->. by apply (FromConfig_false K) in H.
  - intros ->.
    destruct (FromConfig_sets_speed K tables e e' density country state true H) as [v Hv].
    unfold FromConfig in H.
    destruct (not_from_config K e); [discriminate |]. split; [done |].
    destruct (find_tables tables country state) as [found|]; [| discriminate].
    exists found. split; [done |]. split.
    + by apply from_table_entry in H.
    + by subst.
Qed.

Lemma X1_FromConfig_contract_witness :
  (true = false -> DirectedEdge.set_speed sample_way 39 = sample_way)
  /\ (true = true ->
      not_from_config sample_constants sample_way = false
      /\ exists found,
          find_tables sample_registry "us" "pa" = Some found
          /\ DirectedEdge.speed (DirectedEdge.set_speed sample_way 39)
             ∈ table_entries (if 5 <=? 8 then rural found else urban found)
          /\ DirectedEdge.set_speed sample_way 39
             = DirectedEdge.set_speed sample_way
                 (DirectedEdge.speed (DirectedEdge.set_speed sample_way 39))).
Proof.
  apply (X1_FromConfig_contract sample_constants sample_registry sample_way
           (DirectedEdge.set_speed sample_way 39) 5 "us" "pa" true).
  reflexivity.
Defined.

(** X2. [FromConfig] looks at the classification, the use, the two access
    masks and the link, roundabout and sign flags of the edge, and at nothing
    else: two edges that agree on these are resolved alike and get the same
    speed, whatever their present speeds, the provenance of these speeds
    (a tagged speed is replaced like a default one), their surfaces, lengths
    and leaves-tile flags. *)
Theorem X2_FromConfig_reads_seven_attributes :
  forall (K : GraphConstants) (tables : registry) (e1 e2 : DirectedEdge.t) (density : Z)
         (country state : string),
    config_attributes_agree e1 e2 ->
    same_resolution (FromConfig K tables e1 density country state)
                    (FromConfig K tables e2 density country state).
Proof.
  intros K tables e1 e2 density country state.
  destruct e1 as [rc1 use1 fwd1 rev1 link1 round1 sign1 surf1 speed1 type1 len1 leaves1].
  destruct e2 as [rc2 use2 fwd2 rev2 link2 round2 sign2 surf2 speed2 type2 len2 leaves2].
  unfold config_attributes_agree. simpl.
  intros (-> & -> & -> & -> & -> & -> & ->).
  unfold same_resolution, FromConfig, not_from_config.
  cbn -[Nat.leb at_index Z.leb Z.land Z.lor].
  destruct (_ || _ || _); [by split |].
  destruct (find_tables tables country state) as [found|]; [| by split].
  unfold from_table. cbn -[Nat.leb at_index Z.leb].
  destruct use2; try (by split).
  all: destruct link2;
    [destruct (5 <=? rc2)%nat; [by split |]; destruct sign2 | destruct round2].
  all: match goal with |- context [at_index ?a ?i] => destruct (at_index a i) end.
  all: cbn; first [reflexivity | by split].
Qed.

Lemma X2_FromConfig_reads_seven_attributes_witness :
  same_resolution (FromConfig sample_constants sample_registry sample_tagged 5 "us" "pa")
                  (FromConfig sample_constants sample_registry
                     (DirectedEdge.mk 7 kDriveway 1 1 false true false 0 20 kClassified 9 true)
                     5 "us" "pa").
Proof.
  apply (X2_FromConfig_reads_seven_attributes sample_constants sample_registry sample_tagged
           (DirectedEdge.mk 7 kDriveway 1 1 false true false 0 20 kClassified 9 true)
           5 "us" "pa").
  repeat split; reflexivity.
Defined.

(** X3. An edge resolved from the configuration is a fixed point: a second
    call of [FromConfig] with the same table, density and codes resolves it
    again and leaves it as it is, and so does a second call of [UpdateSpeed],
    whatever urban table and inference flag it is given. *)
Theorem X3_configured_edge_is_stable :
  forall (K : GraphConstants) (tables : registry) (e e' : DirectedEdge.t) (density : Z)
         (country state : string),
    FromConfig K tables e density country state = Ok (true, e') ->
    FromConfig K tables e' density country state = Ok (true, e')
    /\ (tables <> ∅ ->
        forall (urban_rc_speed : list Z) (infer : bool),
          UpdateSpeed K tables e' density urban_rc_speed infer country state = Ok e').
Proof.
  intros K tables e e' density country state H.
  assert (Hagain : FromConfig K tables e' density country state = Ok (true, e')).
  { destruct (FromConfig_sets_speed K tables e e' density country state true H) as [v ->].
    by rewrite FromConfig_set_speed, H. }
  split; [done |].
  intros Hne urban_rc_speed infer. by apply UpdateSpeed_configured.
Qed.

Lemma X3_configured_edge_is_stable_witness :
  FromConfig sample_constants sample_registry (DirectedEdge.set_speed sample_way 39) 5 "us" "pa"
  = Ok (true, DirectedEdge.set_speed sample_way 39)
  /\ (sample_registry <> ∅ ->
      forall (urban_rc_speed : list Z) (infer : bool),
        UpdateSpeed sample_constants sample_registry (DirectedEdge.set_speed sample_way 39) 5
          urban_rc_speed infer "us" "pa"
        = Ok (DirectedEdge.set_speed sample_way 39)).
Proof.
  apply (X3_configured_edge_is_stable sample_constants sample_registry sample_way
           (DirectedEdge.set_speed sample_way 39) 5 "us" "pa").
  reflexivity.
Defined.

(** X4. No table ever resolves a ferry, a rail ferry, an edge without
    vehicular access in either direction, or a link of a class of rank 5 or
    more that has no service use: for these edges [UpdateSpeed] is the
    heuristic alone, and its result is the same for every table of overrides
    and every country and state code. *)
Theorem X4_edges_no_table_resolves :
  forall (K : GraphConstants) (e : DirectedEdge.t) (density : Z) (urban_rc_speed : list Z)
         (infer : bool),
    never_from_config K e ->
    forall (tables : registry) (country state : string),
      FromConfig K tables e density country state = Ok (false, e)
      /\ UpdateSpeed K tables e density urban_rc_speed infer country state
         = heuristic K e density urban_rc_speed infer.
Proof.
  intros K e density urban_rc_speed infer Hnever tables country state.
  assert (Hcfg : FromConfig K tables e density country state = Ok (false, e))
    by (by apply FromConfig_never).
  split; [done |].
  apply UpdateSpeed_heuristic. right. by exists e.
Qed.

Lemma X4_edges_no_table_resolves_witness :
  FromConfig sample_constants sample_registry sample_turn_channel 5 "us" "pa"
  = Ok (false, sample_turn_channel)
  /\ UpdateSpeed sample_constants sample_registry sample_turn_channel 5 [] true "us" "pa"
     = heuristic sample_constants sample_turn_channel 5 [] true.
Proof.
  apply (X4_edges_no_table_resolves sample_constants sample_turn_channel 5 [] true).
  right. repeat split; try reflexivity. simpl. lia.
Defined.

(** ** Ferries *)

Section FerryFacts.

Variable K : GraphConstants.

Import DirectedEdge.

Lemma ferry_never_from_config (e : DirectedEdge.t) :
  use e = kFerry \/ use e = kRailFerry -> never_from_config K e.
Proof. intros H. left. apply not_from_config_true. tauto. Qed.

Lemma heuristic_rail_ferry (e : DirectedEdge.t) (density : Z) (urban_rc_speed : list Z)
    (infer : bool) :
  use e = kRailFerry -> link e = false -> speed_type e <> kTagged ->
  heuristic K e density urban_rc_speed infer = Ok (set_speed e 65).
Proof.
  intros Hu Hl Ht. unfold heuristic. rewrite Hl, Hu.
  by rewrite (bool_decide_eq_false_2 (speed_type e = kTagged)).
Qed.

Lemma heuristic_ferry (e : DirectedEdge.t) (density : Z) (urban_rc_speed : list Z)
    (infer : bool) :
  use e = kFerry -> link e = false -> speed_type e <> kTagged ->
  heuristic K e density urban_rc_speed infer
  = Ok (if leaves_tile e then e
        else set_speed e (if length e <? 2000 then 10
                          else if length e <? 8000 then 20 else 30)).
Proof.
  intros Hu Hl Ht. unfold heuristic. rewrite Hl, Hu.
  rewrite (bool_decide_eq_false_2 (speed_type e = kTagged)) by done. simpl.
  destruct (leaves_tile e); [done |].
  destruct (length e <? 2000); [done |]. by destruct (length e <? 8000).
Qed.

End FerryFacts.

(** X5. A rail ferry that is no link and has no tagged speed gets the speed
    65, whatever table of overrides is loaded and whatever the density, the
    urban table (even an empty one), the surface and the roundabout flag.
    With a tagged speed it keeps that speed but for the surface reduction. *)
Theorem X5_rail_ferry_speed :
  forall (K : GraphConstants) (tables : registry) (e : DirectedEdge.t) (density : Z)
         (urban_rc_speed : list Z) (infer : bool) (country state : string),
    DirectedEdge.use e = kRailFerry ->
    DirectedEdge.link e = false ->
    (DirectedEdge.speed_type e <> kTagged ->
     UpdateSpeed K tables e density urban_rc_speed infer country state
     = Ok (DirectedEdge.set_speed e 65))
    /\ (DirectedEdge.speed_type e = kTagged ->
        UpdateSpeed K tables e density urban_rc_speed infer country state
        = Ok (DirectedEdge.set_speed e (tagged_rule K e))).
Proof.
  intros K tables e density urban_rc_speed infer country state Hu Hl.
  assert (Hh : UpdateSpeed K tables e density urban_rc_speed infer country state
               = heuristic K e density urban_rc_speed infer).
  { apply UpdateSpeed_heuristic. right. exists e.
    apply FromConfig_never, ferry_never_from_config. by right. }
  rewrite Hh. split.
  - by apply heuristic_rail_ferry.
  - by apply heuristic_tagged.
Qed.

Lemma X5_rail_ferry_speed_witness :
  UpdateSpeed sample_constants sample_registry sample_rail_ferry 20 [] true "us" "pa"
  = Ok (DirectedEdge.set_speed sample_rail_ferry 65).
Proof.
  apply (X5_rail_ferry_speed sample_constants sample_registry sample_rail_ferry 20 [] true
           "us" "pa");
    try reflexivity; discriminate.
Defined.

(** X6. A ferry that is no link and has no tagged speed is left as it is
    when its leaves-tile flag is set; otherwise its speed is 10 below the
    length 2000, 20 from 2000 and below 8000, and 30 from 8000 on. No table
    of overrides, density, urban table, surface or roundabout flag changes
    that. *)
Theorem X6_ferry_speed_by_length :
  forall (K : GraphConstants) (tables : registry) (e : DirectedEdge.t) (density : Z)
         (urban_rc_speed : list Z) (infer : bool) (country state : string),
    DirectedEdge.use e = kFerry ->
    DirectedEdge.link e = false ->
    DirectedEdge.speed_type e <> kTagged ->
    (DirectedEdge.leaves_tile e = true ->
     UpdateSpeed K tables e density urban_rc_speed infer country state = Ok e)
    /\ (DirectedEdge.leaves_tile e = false ->
        (DirectedEdge.length e < 2000 ->
         UpdateSpeed K tables e density urban_rc_speed infer country state
         = Ok (DirectedEdge.set_speed e 10))
        /\ (2000 <= DirectedEdge.length e < 8000 ->
            UpdateSpeed K tables e density urban_rc_speed infer country state
            = Ok (DirectedEdge.set_speed e 20))
        /\ (8000 <= DirectedEdge.length e ->
            UpdateSpeed K tables e density urban_rc_speed infer country state
            = Ok (DirectedEdge.set_speed e 30))).
Proof.
  intros K tables e density urban_rc_speed infer country state Hu Hl Ht.
  assert (Hh : UpdateSpeed K tables e density urban_rc_speed infer country state
               = heuristic K e density urban_rc_speed infer).
  { apply UpdateSpeed_heuristic. right. exists e.
    apply FromConfig_never, ferry_never_from_config. by left. }
  rewrite Hh, (heuristic_ferry K e density urban_rc_speed infer Hu Hl Ht).
  split.
  - by intros ->.
  - intros ->. repeat split.
    + intros H. apply Z.ltb_lt in H. by rewrite H.
    + intros [H1 H2]. apply Z.ltb_ge in H1. apply Z.ltb_lt in H2. by rewrite H1, H2.
    + intros H.
      assert (H1 : (DirectedEdge.length e <? 2000) = false) by (apply Z.ltb_ge; lia).
      assert (H2 : (DirectedEdge.length e <? 8000) = false) by (apply Z.ltb_ge; lia).
      by rewrite H1, H2.
Qed.

Lemma X6_ferry_speed_by_length_witness :
  UpdateSpeed sample_constants sample_registry (sample_ferry 5000 false) 20 [] true "us" "pa"
  = Ok (DirectedEdge.set_speed (sample_ferry 5000 false) 20)
  /\ UpdateSpeed sample_constants sample_registry (sample_ferry 5000 true) 20 [] true "us" "pa"
     = Ok (sample_ferry 5000 true).
Proof.
  split.
  - apply (X6_ferry_speed_by_length sample_constants sample_registry (sample_ferry 5000 false)
             20 [] true "us" "pa");
      try reflexivity; try discriminate.
    simpl. lia.
  - apply (X6_ferry_speed_by_length sample_constants sample_registry (sample_ferry 5000 true)
             20 [] true "us" "pa");
      try reflexivity; discriminate.
Defined.

(** ** Density *)

(** X7. The density enters [UpdateSpeed] through the comparison with 8 and
    in no other way: two densities on the same side of 8 give the same
    result. *)
Theorem X7_density_only_through_threshold :
  forall (K : GraphConstants) (tables : registry) (e : DirectedEdge.t) (d1 d2 : Z)
         (urban_rc_speed : list Z) (infer : bool) (country state : string),
    (d1 <= 8 <-> d2 <= 8) ->
    UpdateSpeed K tables e d1 urban_rc_speed infer country state
    = UpdateSpeed K tables e d2 urban_rc_speed infer country state.
Proof.
  intros K tables e d1 d2 urban_rc_speed infer country state Hside.
  assert (Hle : (d1 <=? 8) = (d2 <=? 8)).
  { destruct (Z.leb_spec d1 8), (Z.leb_spec d2 8); try done; lia. }
  assert (Hgt : (d1 >? 8) = (d2 >? 8)).
  { rewrite !Z.gtb_ltb. destruct (Z.ltb_spec 8 d1), (Z.ltb_spec 8 d2); try done; lia. }
  unfold UpdateSpeed, FromConfig, heuristic, link_speed.
  by rewrite Hle, Hgt.
Qed.

Lemma X7_density_only_through_threshold_witness :
  UpdateSpeed sample_constants sample_registry sample_way 9 sample_urban_rc_speed false "us" "pa"
  = UpdateSpeed sample_constants sample_registry sample_way 4000 sample_urban_rc_speed false
      "us" "pa".
Proof.
  apply (X7_density_only_through_threshold sample_constants sample_registry sample_way 9 4000
           sample_urban_rc_speed false "us" "pa").
  split; intros H; lia.
Defined.

(** ** Defined behaviour *)

Section DefinedFacts.

Variable K : GraphConstants.

Import DirectedEdge.

Lemma at_index_err {n : nat} (arr : vec Z n) (i : nat) (f : fault) :
  at_index arr i = Err f -> f = OutOfBounds.
Proof. unfold at_index. destruct (vec_to_list arr !! i); [discriminate | by intros [= <-]]. Qed.

(** The override path converts no float: its only fault is a read past the
    end of a table. *)
Lemma FromConfig_err (tables : registry) (e : DirectedEdge.t) (density : Z)
    (country state : string) (f : fault) :
  FromConfig K tables e density country state = Err f -> f = OutOfBounds.
Proof.
  unfold FromConfig. destruct (not_from_config K e); [discriminate |].
  destruct (find_tables tables country state); [| discriminate].
  unfold from_table. intros H.
  destruct (use e); try discriminate.
  all: destruct (link e);
    [ destruct (5 <=? classification e)%nat; [discriminate |]; destruct (sign e)
    | destruct (roundabout e) ].
  all: apply bind_err in H as [H | (v & _ & H)]; [by apply at_index_err in H | discriminate].
Qed.

Lemma FromConfig_defined (tables : registry) (e : DirectedEdge.t) (density : Z)
    (country state : string) :
  (classification e <= 7)%nat ->
  exists r, FromConfig K tables e density country state = Ok r.
Proof.
  intros Hrc. destruct (FromConfig K tables e density country state) as [r|f] eqn:H.
  - by exists r.
  - pose proof (FromConfig_err _ _ _ _ _ _ H) as ->.
    apply FromConfig_fault in H. lia.
Qed.

Lemma heuristic_defined (e : DirectedEdge.t) (density : Z) (urban_rc_speed : list Z)
    (infer : bool) :
  (classification e < Datatypes.length urban_rc_speed)%nat ->
  0 <= speed e <= kMaxSpeedByte ->
  Forall (fun u => 0 <= u <= kMaxSpeedByte) urban_rc_speed ->
  exists e', heuristic K e density urban_rc_speed infer = Ok e'.
Proof.
  intros Hrc Hs Hurban.
  destruct (link e) eqn:Hl.
  { rewrite heuristic_link, link_speed_exact by done. by eexists. }
  destruct (decide (speed_type e = kTagged)) as [Ht|Ht].
  { rewrite heuristic_tagged by done. by eexists. }
  destruct (decide (use e = kRailFerry)) as [Hr|Hr].
  { rewrite heuristic_rail_ferry by done. by eexists. }
  destruct (decide (use e = kFerry)) as [Hf|Hf].
  { rewrite heuristic_ferry by done. by eexists. }
  destruct (lookup_lt_is_Some_2 urban_rc_speed (classification e) Hrc) as [u Hu].
  assert (Hin : 0 <= u <= kMaxSpeedByte).
  { by apply (Forall_lookup_1 _ _ _ _ Hurban Hu). }
  rewrite (heuristic_cumulative K e density urban_rc_speed infer u).
  - by eexists.
  - by repeat split.
  - done.
  - intros _. unfold urban_step. by destruct (8 <? density).
Qed.

End DefinedFacts.

(** X8. With a classification of rank at most 7, an urban table of at least
    8 entries and the speed of the edge and the urban speeds between 0 and
    255, [UpdateSpeed] has a defined result for every table of overrides:
    no table is read past its end and every float that is converted to an
    unsigned integer fits. *)
Theorem X8_UpdateSpeed_is_defined :
  forall (K : GraphConstants) (tables : registry) (e : DirectedEdge.t) (density : Z)
         (urban_rc_speed : list Z) (infer : bool) (country state : string),
    (DirectedEdge.classification e <= 7)%nat ->
    (8 <= Datatypes.length urban_rc_speed)%nat ->
    0 <= DirectedEdge.speed e <= kMaxSpeedByte ->
    Forall (fun u => 0 <= u <= kMaxSpeedByte) urban_rc_speed ->
    exists e', UpdateSpeed K tables e density urban_rc_speed infer country state = Ok e'.
Proof.
  intros K tables e density urban_rc_speed infer country state Hrc Hlen Hs Hurban.
  assert (Hh : exists e', heuristic K e density urban_rc_speed infer = Ok e').
  { apply heuristic_defined; try done. lia. }
  unfold UpdateSpeed.
  destruct (bool_decide (tables = ∅)); [done |].
  destruct (FromConfig_defined K tables e density country state Hrc) as [[b e0] Hcfg].
  rewrite Hcfg. simpl. destruct b; [by exists e0 |].
  by rewrite (FromConfig_false K _ _ _ _ _ _ Hcfg).
Qed.

Lemma X8_UpdateSpeed_is_defined_witness :
  exists e',
    UpdateSpeed sample_constants sample_registry sample_roundabout 20 sample_urban_rc_speed
      true "fr" "" = Ok e'.
Proof.
  apply (X8_UpdateSpeed_is_defined sample_constants sample_registry sample_roundabout 20
           sample_urban_rc_speed true "fr" "").
  - simpl. lia.
  - simpl. lia.
  - unfold kMaxSpeedByte. simpl. lia.
  - unfold kMaxSpeedByte. repeat (constructor; [lia |]). constructor.
Defined.

(** ** Bounds of the heuristic speeds *)

Lemma rounded_bounds (num s : Z) :
  100 * rounded num s <= num * s + 50 < 100 * rounded num s + 100.
Proof. unfold rounded. pose proof (Z.div_mod (num * s + 50) 100). pose proof (Z.mod_pos_bound (num * s + 50) 100). lia. Qed.

(** X9. On the heuristic path, for speeds up to 255, a ramp never gets
    faster than it was and keeps at least 80 percent of its speed (rounded),
    a turn channel never gets slower and gets at most 125 percent (rounded),
    and every other link keeps its speed; in particular a link of speed 0
    keeps the speed 0. *)
Theorem X9_link_speed_bounds :
  forall (K : GraphConstants) (tables : registry) (e : DirectedEdge.t) (density : Z)
         (urban_rc_speed : list Z) (infer : bool) (country state : string),
    DirectedEdge.link e = true ->
    not_configured K tables e density country state ->
    0 <= DirectedEdge.speed e <= kMaxSpeedByte ->
    exists v,
      UpdateSpeed K tables e density urban_rc_speed infer country state
      = Ok (DirectedEdge.set_speed e v)
      /\ (DirectedEdge.use e = kRamp ->
          v <= DirectedEdge.speed e /\ 80 * DirectedEdge.speed e - 50 < 100 * v)
      /\ (DirectedEdge.use e = kTurnChannel ->
          DirectedEdge.speed e <= v /\ 100 * v <= 125 * DirectedEdge.speed e + 50)
      /\ (DirectedEdge.use e <> kRamp -> DirectedEdge.use e <> kTurnChannel ->
          v = DirectedEdge.speed e)
      /\ (DirectedEdge.speed e = 0 -> v = 0).
Proof.
  intros K tables e density urban_rc_speed infer country state Hlink Hcfg Hs.
  exists (link_rule K e density infer).
  rewrite (UpdateSpeed_heuristic K tables e density urban_rc_speed infer country state Hcfg).
  rewrite (heuristic_link K e density urban_rc_speed infer Hlink).
  rewrite (link_speed_exact K e density infer Hs). simpl.
  split; [done |].
  pose proof (rounded_bounds 125 (DirectedEdge.speed e)) as H125.
  pose proof (rounded_bounds 80 (DirectedEdge.speed e)) as H80.
  pose proof (rounded_bounds 85 (DirectedEdge.speed e)) as H85.
  unfold link_rule.
  split; [| split; [| split]].
  - intros ->. destruct (DirectedEdge.speed_type e); [lia |].
    destruct (is_major K (DirectedEdge.classification e) && (8 <? density)); lia.
  - intros ->. destruct infer; lia.
  - intros H1 H2. by destruct (DirectedEdge.use e).
  - intros H0. rewrite H0 in *.
    destruct (DirectedEdge.use e); try done.
    + destruct (DirectedEdge.speed_type e); [done |].
      by destruct (is_major K (DirectedEdge.classification e) && (8 <? density)).
    + by destruct infer.
Qed.

Lemma X9_link_speed_bounds_witness :
  exists v,
    UpdateSpeed sample_constants ∅ sample_ramp 9 [] false "us" "pa"
    = Ok (DirectedEdge.set_speed sample_ramp v)
    /\ (DirectedEdge.use sample_ramp = kRamp ->
        v <= DirectedEdge.speed sample_ramp /\ 80 * DirectedEdge.speed sample_ramp - 50 < 100 * v)
    /\ (DirectedEdge.use sample_ramp = kTurnChannel ->
        DirectedEdge.speed sample_ramp <= v /\ 100 * v <= 125 * DirectedEdge.speed sample_ramp + 50)
    /\ (DirectedEdge.use sample_ramp <> kRamp -> DirectedEdge.use sample_ramp <> kTurnChannel ->
        v = DirectedEdge.speed sample_ramp)
    /\ (DirectedEdge.speed sample_ramp = 0 -> v = 0).
Proof.
  apply (X9_link_speed_bounds sample_constants ∅ sample_ramp 9 [] false "us" "pa").
  - reflexivity.
  - left. reflexivity.
  - unfold kMaxSpeedByte. simpl. lia.
Defined.

(** X10. On the heuristic path a tagged speed of an edge that is no link is
    never raised and never lowered by more than 10; the unsigned subtraction
    cannot wrap around, and a speed above 15 stays above 10. *)
Theorem X10_tagged_speed_bounds :
  forall (K : GraphConstants) (tables : registry) (e : DirectedEdge.t) (density : Z)
         (urban_rc_speed : list Z) (infer : bool) (country state : string),
    DirectedEdge.link e = false ->
    DirectedEdge.speed_type e = kTagged ->
    not_configured K tables e density country state ->
    0 <= DirectedEdge.speed e ->
    exists v,
      UpdateSpeed K tables e density urban_rc_speed infer country state
      = Ok (DirectedEdge.set_speed e v)
      /\ DirectedEdge.speed e - 10 <= v <= DirectedEdge.speed e
      /\ 0 <= v
      /\ (15 < DirectedEdge.speed e -> 10 < v).
Proof.
  intros K tables e density urban_rc_speed infer country state Hlink Htag Hcfg Hs.
  exists (tagged_rule K e).
  rewrite (UpdateSpeed_heuristic K tables e density urban_rc_speed infer country state Hcfg).
  rewrite (heuristic_tagged K e density urban_rc_speed infer Hlink Htag).
  split; [done |].
  unfold tagged_rule.
  destruct (kPavedRough K <=? DirectedEdge.surface e)%nat; [| lia].
  destruct (Z.leb_spec 50 (DirectedEdge.speed e)); [lia |].
  destruct (Z.ltb_spec 15 (DirectedEdge.speed e)); lia.
Qed.

Lemma X10_tagged_speed_bounds_witness :
  exists v,
    UpdateSpeed sample_constants ∅ sample_tagged 20 sample_urban_rc_speed true "us" "pa"
    = Ok (DirectedEdge.set_speed sample_tagged v)
    /\ DirectedEdge.speed sample_tagged - 10 <= v <= DirectedEdge.speed sample_tagged
    /\ 0 <= v
    /\ (15 < DirectedEdge.speed sample_tagged -> 10 < v).
Proof.
  apply (X10_tagged_speed_bounds sample_constants ∅ sample_tagged 20 sample_urban_rc_speed
           true "us" "pa").
  - reflexivity.
  - reflexivity.
  - left. reflexivity.
  - simpl. lia.
Defined.

(** ** The table a file gives *)

Lemma record_key_not_empty (r : ConfigRecord) : record_key r <> "".
Proof. unfold record_key. by destruct (iso3166_1 r). Qed.

Lemma length_remove_dups_le (l : list string) :
  (Datatypes.length (remove_dups l) <= Datatypes.length l)%nat.
Proof.
  induction l as [|x l IH]; simpl; [done |].
  destruct (decide_rel elem_of x l); simpl; lia.
Qed.

(** What the entries of the map of a list of records are. *)
Lemma lookup_records (records : list ConfigRecord) (k : string) (p : table_pair) :
  (list_to_map (record_entry <$> records) : registry) !! k = Some p ->
  exists r, r ∈ records /\ k = record_key r /\ p = (urban_spec r, rural_spec r).
Proof.
  intros H. apply elem_of_list_to_map_2 in H.
  apply list_elem_of_fmap in H as (r & Hr & Hin).
  exists r. unfold record_entry in Hr. by injection Hr as -> ->.
Qed.

Lemma table_shape_uint32 (obj : json) (t : SpeedTable.t) :
  table_shape obj t -> Forall uint32 (table_entries t).
Proof.
  intros (members & _ & _ & _ & _ & _ & _ & _ & _ & _ & H1 & H2 & H3 & H4 & H5).
  unfold table_entries. by rewrite !Forall_app.
Qed.

Lemma find_tables_some (tables : registry) (country state : string) (found : table_pair) :
  find_tables tables country state = Some found -> exists k, tables !! k = Some found.
Proof.
  unfold find_tables.
  destruct (tables !! ((country +:+ ".") +:+ state)) eqn:E1; [intros [= <-]; eauto |].
  destruct (tables !! (country +:+ ".")) eqn:E2; [intros [= <-]; eauto |].
  eauto.
Qed.

Section LoadFacts.

Variable read_json : string -> result exn rapidjson.Document.

(** The two ways a load ends. *)
Lemma new_SpeedAssigner_cases (file : string) :
  (malformed (read_json file)
   /\ exists message,
       new_SpeedAssigner read_json (Some file)
       = ({| tables := ∅;
             log := [(WARN, message);
                     (INFO, "Enabled default speeds assignment from config: " +:+ file)] |},
          Ok tt))
  \/ (exists doc records,
        read_json file = Ok doc
        /\ rapidjson.HasParseError doc = false
        /\ well_formed (rapidjson.root doc) records
        /\ new_SpeedAssigner read_json (Some file)
           = ({| tables := list_to_map (record_entry <$> records);
                 log := [(INFO, "Enabled default speeds assignment from config: " +:+ file)] |},
              Ok tt)).
Proof.
  destruct (read_json file) as [doc|x] eqn:Hread.
  - destruct (rapidjson.HasParseError doc) eqn:Hp.
    { left. assert (Hm : malformed (Ok doc)) by (by left).
      split; [done |]. rewrite <- Hread in Hm.
      by apply new_SpeedAssigner_malformed. }
    destruct (rapidjson.root doc) as [| | | | |items|] eqn:Hroot.
    6: {
      destruct (load_pairs items {| tables := ∅; log := [] |}) as [st1 [[]|y]] eqn:Hload.
      - right. destruct (load_pairs_ok _ _ _ Hload) as [records Hrecords].
        exists doc, records. rewrite Hroot.
        split; [done |]. split; [done |]. split; [by exists items |].
        rewrite (load_pairs_shape items records _ Hrecords) in Hload.
        injection Hload as <-.
        unfold new_SpeedAssigner, SpeedAssigner_ctor, ctor_bind, try_catch, lift, throw.
        rewrite Hread, Hp, Hroot. simpl.
        rewrite (load_pairs_shape items records _ Hrecords). simpl.
        unfold LOG. simpl. by rewrite (left_id_L ∅ (∪)).
      - left.
        assert (Hm : malformed (Ok doc)).
        { right. rewrite Hroot. intros (records & items' & [= <-] & Hrecords).
          by rewrite (load_pairs_shape items records _ Hrecords) in Hload. }
        split; [done |]. rewrite <- Hread in Hm.
        by apply new_SpeedAssigner_malformed. }
    all: left;
      assert (Hm : malformed (Ok doc))
        by (right; rewrite Hroot; intros (records & items & Hitems & _); discriminate);
      (split; [done |]); rewrite <- Hread in Hm;
      by apply new_SpeedAssigner_malformed.
  - left. split; [done |].
    apply new_SpeedAssigner_malformed. by rewrite Hread.
Qed.

(** Every entry of the table of a new assigner comes from a record of the
    document. *)
Lemma new_SpeedAssigner_entry (config_file : option string) (k : string) (p : table_pair) :
  tables (new_SpeedAssigner read_json config_file).1 !! k = Some p ->
  exists cs r,
    record_shape cs r /\ k = record_key r /\ p = (urban_spec r, rural_spec r).
Proof.
  destruct config_file as [file|]; [| done].
  destruct (new_SpeedAssigner_cases file)
    as [[_ [message ->]] | (doc & records & _ & _ & (items & _ & Hall) & ->)]; [done |].
  simpl. intros H. apply lookup_records in H as (r & Hin & -> & ->).
  apply list_elem_of_lookup_1 in Hin as [i Hi].
  destruct (Forall2_lookup_r _ _ _ _ _ Hall Hi) as (cs & _ & Hcs).
  by exists cs, r.
Qed.

End LoadFacts.

(** X11. Loading a configuration file ends in one of two ways, and in both
    without an exception. Either the document is malformed, the table is
    empty and one warning is logged; or the document is well formed, no
    warning is logged and the table holds the records, the first record of a
    key winning. In both cases the log ends with the line that says
    assignment from the file is enabled, also after a load that failed. *)
Theorem X11_load_outcome :
  forall (read_json : string -> result exn rapidjson.Document) (file : string),
    (malformed (read_json file)
     /\ exists message,
         new_SpeedAssigner read_json (Some file)
         = ({| tables := ∅;
               log := [(WARN, message);
                       (INFO, "Enabled default speeds assignment from config: " +:+ file)] |},
            Ok tt))
    \/ (exists doc records,
          read_json file = Ok doc
          /\ rapidjson.HasParseError doc = false
          /\ well_formed (rapidjson.root doc) records
          /\ new_SpeedAssigner read_json (Some file)
             = ({| tables := list_to_map (record_entry <$> records);
                   log := [(INFO, "Enabled default speeds assignment from config: " +:+ file)] |},
                Ok tt)).
Proof. intros. apply new_SpeedAssigner_cases. Qed.

(** X12. Every key of the table of a new assigner is a country code, a dot
    and a subdivision code. The empty key is never among them, so the third
    lookup of [FromConfig], the global default, never succeeds on a table
    built by the constructor: the lookup is that of the exact key, then that
    of the country alone, and an edge of a country without entry is not
    resolved. *)
Theorem X12_no_global_default_from_a_file :
  forall (read_json : string -> result exn rapidjson.Document) (config_file : option string)
         (country state : string),
    (forall (k : string) (p : table_pair),
        tables (new_SpeedAssigner read_json config_file).1 !! k = Some p ->
        exists c s, k = (c +:+ ".") +:+ s)
    /\ tables (new_SpeedAssigner read_json config_file).1 !! "" = None
    /\ find_tables (tables (new_SpeedAssigner read_json config_file).1) country state
       = match tables (new_SpeedAssigner read_json config_file).1
                 !! ((country +:+ ".") +:+ state) with
         | Some found => Some found
         | None => tables (new_SpeedAssigner read_json config_file).1 !! (country +:+ ".")
         end
    /\ (forall (K : GraphConstants) (e : DirectedEdge.t) (density : Z),
          tables (new_SpeedAssigner read_json config_file).1
            !! ((country +:+ ".") +:+ state) = None ->
          tables (new_SpeedAssigner read_json config_file).1 !! (country +:+ ".") = None ->
          FromConfig K (tables (new_SpeedAssigner read_json config_file).1) e density
            country state = Ok (false, e)).
Proof.
  intros read_json config_file country state.
  assert (Hkeys : forall (k : string) (p : table_pair),
             tables (new_SpeedAssigner read_json config_file).1 !! k = Some p ->
             exists c s, k = (c +:+ ".") +:+ s).
  { intros k p H. apply new_SpeedAssigner_entry in H as (cs & r & _ & -> & _).
    by exists (iso3166_1 r), (iso3166_2 r). }
  assert (Hempty : tables (new_SpeedAssigner read_json config_file).1 !! "" = None).
  { destruct (tables (new_SpeedAssigner read_json config_file).1 !! "") as [p|] eqn:H;
      [| done].
    apply new_SpeedAssigner_entry in H as (cs & r & _ & Hk & _).
    symmetry in Hk. by apply record_key_not_empty in Hk. }
  split; [done |]. split; [done |]. split.
  - unfold find_tables. rewrite Hempty.
    destruct (tables _ !! ((country +:+ ".") +:+ state)); [done |].
    by destruct (tables _ !! (country +:+ ".")).
  - intros K e density H1 H2. unfold FromConfig.
    destruct (not_from_config K e); [done |].
    by rewrite find_tables_none.
Qed.

Lemma X12_no_global_default_from_a_file_witness :
  FromConfig sample_constants (tables (new_SpeedAssigner (read_as sample_doc) (Some "f")).1)
    sample_way 5 "fr" "" = Ok (false, sample_way).
Proof.
  apply (X12_no_global_default_from_a_file (read_as sample_doc) (Some "f") "fr" "");
    reflexivity.
Defined.

(** X13. Every speed of every table of a new assigner is an unsigned number
    of 32 bits, as [GetUint] delivered it; so is every speed that
    [FromConfig] assigns from such a table. *)
Theorem X13_built_speeds_are_uint32 :
  forall (read_json : string -> result exn rapidjson.Document) (config_file : option string),
    (forall (k : string) (urban_table rural_table : SpeedTable.t),
        tables (new_SpeedAssigner read_json config_file).1 !! k
        = Some (urban_table, rural_table) ->
        Forall uint32 (table_entries urban_table)
        /\ Forall uint32 (table_entries rural_table))
    /\ (forall (K : GraphConstants) (e e' : DirectedEdge.t) (density : Z)
               (country state : string),
          FromConfig K (tables (new_SpeedAssigner read_json config_file).1) e density
            country state = Ok (true, e') ->
          uint32 (DirectedEdge.speed e')).
Proof.
  intros read_json config_file.
  assert (Hall : forall (k : string) (urban_table rural_table : SpeedTable.t),
             tables (new_SpeedAssigner read_json config_file).1 !! k
             = Some (urban_table, rural_table) ->
             Forall uint32 (table_entries urban_table)
             /\ Forall uint32 (table_entries rural_table)).
  { intros k u r H.
    apply new_SpeedAssigner_entry in H as (cs & rec & Hshape & _ & [= -> ->]).
    destruct Hshape as (members & u_obj & r_obj & _ & _ & _ & _ & _ & Hu & Hr).
    split; by eapply table_shape_uint32. }
  split; [done |].
  intros K e e' density country state H.
  unfold FromConfig in H.
  destruct (not_from_config K e); [discriminate |].
  destruct (find_tables _ country state) as [[u r]|] eqn:Hfound; [| discriminate].
  apply from_table_entry in H.
  destruct (find_tables_some _ _ _ _ Hfound) as [k Hk]. destruct (Hall k u r Hk) as [Hu Hr].
  unfold pair_at in H. rewrite Forall_forall in Hu, Hr.
  destruct (density <=? 8); simpl in H; auto.
Qed.

Lemma X13_built_speeds_are_uint32_witness :
  uint32 (DirectedEdge.speed (DirectedEdge.set_speed sample_way 39)).
Proof.
  apply (proj2 (X13_built_speeds_are_uint32 (read_as sample_doc) (Some "f"))
           sample_constants sample_way (DirectedEdge.set_speed sample_way 39) 5 "us" "pa").
  reflexivity.
Defined.

(** X14. The table built from a well-formed document has as many entries as
    the records have distinct keys, never more than there are records, and
    its keys are exactly the keys of the records. *)
Theorem X14_one_entry_per_distinct_key :
  forall (read_json : string -> result exn rapidjson.Document) (file : string) (doc : json)
         (records : list ConfigRecord),
    read_json file = Ok {| rapidjson.HasParseError := false; rapidjson.root := doc |} ->
    well_formed doc records ->
    size (tables (new_SpeedAssigner read_json (Some file)).1)
    = Datatypes.length (remove_dups (record_key <$> records))
    /\ (size (tables (new_SpeedAssigner read_json (Some file)).1)
        <= Datatypes.length records)%nat
    /\ (forall k : string,
          is_Some (tables (new_SpeedAssigner read_json (Some file)).1 !! k)
          <-> k ∈ record_key <$> records).
Proof.
  intros read_json file doc records Hread Hwf.
  rewrite (new_SpeedAssigner_well_formed read_json file doc records Hread Hwf).
  assert (Hsize : size (list_to_map (record_entry <$> records) : registry)
                  = Datatypes.length (remove_dups (record_key <$> records))).
  { rewrite <- (size_dom (D := gset string)), dom_list_to_map_L, record_keys.
    rewrite <- (size_list_to_set (C := gset string)) by apply NoDup_remove_dups.
    f_equal. apply set_eq. intros k.
    by rewrite !elem_of_list_to_set, elem_of_remove_dups. }
  split; [done |]. split.
  - rewrite Hsize. etrans; [apply length_remove_dups_le |]. by rewrite length_fmap.
  - intros k. rewrite <- elem_of_dom, dom_list_to_map_L, record_keys.
    by rewrite elem_of_list_to_set.
Qed.

Lemma X14_one_entry_per_distinct_key_witness :
  size (tables (new_SpeedAssigner (read_as repeat_doc) (Some "speeds.json")).1)
  = Datatypes.length (remove_dups (record_key <$> [sample_record; sample_repeat]))
  /\ (size (tables (new_SpeedAssigner (read_as repeat_doc) (Some "speeds.json")).1)
      <= Datatypes.length [sample_record; sample_repeat])%nat
  /\ (forall k : string,
        is_Some (tables (new_SpeedAssigner (read_as repeat_doc) (Some "speeds.json")).1 !! k)
        <-> k ∈ record_key <$> [sample_record; sample_repeat]).
Proof.
  apply (X14_one_entry_per_distinct_key (read_as repeat_doc) "speeds.json" repeat_doc
           [sample_record; sample_repeat]).
  - reflexivity.
  - exists [record_json sample_record; record_json sample_repeat]. split; [reflexivity |].
    constructor; [| constructor; [| constructor]].
    + exists [("iso3166-1", JString "us"); ("iso3166-2", JString "pa");
              ("urban", table_json sample_urban); ("rural", table_json sample_rural)],
             (table_json sample_urban), (table_json sample_rural).
      repeat split; try reflexivity.
      * eexists. repeat split; try reflexivity;
          simpl; repeat (constructor; [unfold uint32; lia |]); constructor.
      * eexists. repeat split; try reflexivity;
          simpl; repeat (constructor; [unfold uint32; lia |]); constructor.
    + exists [("iso3166-1", JString "us"); ("iso3166-2", JString "pa");
              ("urban", table_json sample_rural); ("rural", table_json sample_urban)],
             (table_json sample_rural), (table_json sample_urban).
      repeat split; try reflexivity.
      * eexists. repeat split; try reflexivity;
          simpl; repeat (constructor; [unfold uint32; lia |]); constructor.
      * eexists. repeat split; try reflexivity;
          simpl; repeat (constructor; [unfold uint32; lia |]); constructor.
Defined.

(** ** The instance of the process *)

(** X15. [GetInstance] never throws, and constructs the assigner once: after
    a first call, every later call returns the table of the first call,
    whatever configuration path it is given and whatever the files hold by
    then, and neither reads a file nor logs a line. On a fresh process the
    table is the one the constructor builds from the path of the first
    call. *)
Theorem X15_GetInstance_constructs_once :
  forall (read_json : string -> result exn rapidjson.Document) (config_file : option string)
         (p : process),
    exists (instance : registry) (p' : process),
      GetInstance read_json config_file p = (p', Ok instance)
      /\ assigner p' = Some instance
      /\ (assigner p = None ->
          instance = tables (new_SpeedAssigner read_json config_file).1
          /\ process_log p'
             = process_log p ++ log (new_SpeedAssigner read_json config_file).1)
      /\ (forall (read_json' : string -> result exn rapidjson.Document)
                 (config_file' : option string),
            GetInstance read_json' config_file' p' = (p', Ok instance)).
Proof.
  intros read_json config_file p. unfold GetInstance.
  destruct (assigner p) as [instance|] eqn:Hp.
  - exists instance, p. split; [done |]. split; [done |]. split; [done |].
    intros read_json' config_file'. unfold GetInstance. by rewrite Hp.
  - destruct (new_SpeedAssigner_returns read_json config_file) as [st Hst].
    rewrite Hst. simpl.
    eexists _, _. split; [done |]. split; [done |]. split; [done |].
    intros read_json' config_file'. by unfold GetInstance.
Qed.

Lemma X15_GetInstance_constructs_once_witness :
  exists (instance : registry) (p' : process),
    GetInstance (read_as sample_doc) (Some "speeds.json") fresh_process = (p', Ok instance)
    /\ assigner p' = Some instance
    /\ (assigner fresh_process = None ->
        instance = tables (new_SpeedAssigner (read_as sample_doc) (Some "speeds.json")).1
        /\ process_log p'
           = process_log fresh_process
             ++ log (new_SpeedAssigner (read_as sample_doc) (Some "speeds.json")).1)
    /\ (forall (read_json' : string -> result exn rapidjson.Document)
               (config_file' : option string),
          GetInstance read_json' config_file' p' = (p', Ok instance)).
Proof.
  apply (X15_GetInstance_constructs_once (read_as sample_doc) (Some "speeds.json")
           fresh_process).
Defined.

(** ** The range of the heuristic speeds *)


